(** * SmartBiz: the natural-language query path

    A shallow embedding of the JavaScript code that carries a query from
    the React dashboard to the SmartSQL provider:

    - [Api]       : frontend/src/services/api.js
                    ([isValidStringInput], [createPostOptions],
                    [handleRequest], [runSmartSQL]);
    - [Worker]    : the Raindrop function ([handleQuery] of the worker
                    script);
    - [Dashboard] : the AnalyticsDashboard component ([loadMetric],
                    [handleQuerySubmit]);
    - [ApiRest], [WorkerRouter], [Server], [Chat], [Invoice] : the other
                    requests of api.js, the routing of the worker, the
                    Express server with its binding, and the components
                    that call the API.

    JavaScript values are an inductive type, objects are association
    lists (property order is observable through [Object.keys]),
    [async] functions are computations in an exception-and-state monad
    whose state records the calls made to the outside world.  The
    outside world (the network, the provider bindings, the clock) is an
    arbitrary oracle. *)

From Stdlib Require Import String Ascii List ZArith QArith Bool Arith Lia.
Import ListNotations.
Local Close Scope Q_scope.
Local Open Scope string_scope.
Local Open Scope list_scope.

(* ===================================================================== *)
(** ** JavaScript values, strings and completions *)
(* ===================================================================== *)

Module Js.

(** A string is a sequence of code units; the model follows JavaScript
    on the ASCII range and treats the units above 127 as opaque
    characters that are neither white space nor letters. *)

Definition isWhiteSpace (c : ascii) : bool :=
  let n := nat_of_ascii c in
  (((9 <=? n) && (n <=? 13)) || (n =? 32))%nat.

Definition isEmpty (s : string) : bool :=
  match s with EmptyString => true | String _ _ => false end.

Fixpoint trimStart (s : string) : string :=
  match s with
  | EmptyString => EmptyString
  | String c r => if isWhiteSpace c then trimStart r else s
  end.

Fixpoint trimEnd (s : string) : string :=
  match s with
  | EmptyString => EmptyString
  | String c r =>
      let r' := trimEnd r in
      if isWhiteSpace c && isEmpty r' then EmptyString else String c r'
  end.

(** [String.prototype.trim] *)
Definition trim (s : string) : string := trimEnd (trimStart s).

Definition upperChar (c : ascii) : ascii :=
  let n := nat_of_ascii c in
  if ((97 <=? n) && (n <=? 122))%nat then ascii_of_nat (n - 32) else c.

(** [String.prototype.toUpperCase] *)
Fixpoint toUpperCase (s : string) : string :=
  match s with
  | EmptyString => EmptyString
  | String c r => String (upperChar c) (toUpperCase r)
  end.

(** [s.startsWith(p)] *)
Definition startsWith (s p : string) : bool := String.prefix p s.

(** [s.includes(sub)] *)
Fixpoint includes (s sub : string) : bool :=
  startsWith s sub ||
  match s with
  | EmptyString => false
  | String _ r => includes r sub
  end.

Definition dquote : string := String (ascii_of_nat 34) EmptyString.
Definition newline : string := String (ascii_of_nat 10) EmptyString.

(** Values.  Numbers are rationals: the code never computes with them
    beyond comparing with zero. *)
#[warnings="-register-all"]
Inductive JsVal : Type :=
| JUndefined
| JNull
| JBool (b : bool)
| JNum (q : Q)
| JStr (s : string)
| JArr (items : list JsVal)
| JObj (props : list (string * JsVal)).

Definition num (z : Z) : JsVal := JNum (inject_Z z).

(** ToBoolean *)
Definition truthy (v : JsVal) : bool :=
  match v with
  | JUndefined | JNull => false
  | JBool b => b
  | JNum q => negb (Qnum q =? 0)%Z
  | JStr s => negb (isEmpty s)
  | JArr _ | JObj _ => true
  end.

Definition isString (v : JsVal) : bool :=
  match v with JStr _ => true | _ => false end.

Fixpoint assoc (k : string) (props : list (string * JsVal)) : option JsVal :=
  match props with
  | [] => None
  | (k', v) :: rest => if String.eqb k k' then Some v else assoc k rest
  end.

(** Own data property of an object; [None] for every other value. *)
Definition lookupProp (v : JsVal) (k : string) : option JsVal :=
  match v with
  | JObj props => assoc k props
  | _ => None
  end.

(** [{...obj, [k]: v}]: the key keeps its place when present. *)
Fixpoint setProp (props : list (string * JsVal)) (k : string) (v : JsVal)
  : list (string * JsVal) :=
  match props with
  | [] => [(k, v)]
  | (k', v') :: rest =>
      if String.eqb k k' then (k', v) :: rest else (k', v') :: setProp rest k v
  end.

(** Thrown values are [Error] instances: [fetch], [Response.json] and the
    provider bindings reject with one, and so does a failed property
    access. *)
Record JsError : Type := mkError { err_name : string; err_message : string }.

Inductive Completion (A : Type) : Type :=
| Normal (a : A)
| Throw (e : JsError).
Arguments Normal {A} a.
Arguments Throw {A} e.

(** Text of V8's TypeError for a property read on [null]/[undefined]. *)
Definition cannotRead (v : JsVal) (k : string) : JsError :=
  mkError "TypeError"
    ("Cannot read properties of "
       ++ (match v with JNull => "null" | _ => "undefined" end)
       ++ " (reading '" ++ k ++ "')").

(** [v.k] for a key that names no built-in property of strings, arrays,
    numbers or booleans (the keys read by the code are [error], [sql],
    [results], [rows] and [query]). *)
Definition getProp (v : JsVal) (k : string) : Completion JsVal :=
  match v with
  | JUndefined | JNull => Throw (cannotRead v k)
  | JObj props =>
      match assoc k props with Some x => Normal x | None => Normal JUndefined end
  | _ => Normal JUndefined
  end.

(** The text produced by [JSON.stringify v], kept as the value it
    encodes. *)
Inductive JsonText : Type := JSON_stringify (v : JsVal).

(** Computations: may throw, and thread a state (the record of the
    calls made so far). *)
Definition Eff (S A : Type) : Type := S -> Completion A * S.

Definition ret {S A} (a : A) : Eff S A := fun s => (Normal a, s).

Definition throw {S A} (e : JsError) : Eff S A := fun s => (Throw e, s).

Definition bind {S A B} (m : Eff S A) (k : A -> Eff S B) : Eff S B :=
  fun s =>
    match m s with
    | (Normal a, s') => k a s'
    | (Throw e, s') => (Throw e, s')
    end.

(** A completion that is already known (an awaited promise, a property
    read). *)
Definition await {S A} (c : Completion A) : Eff S A := fun s => (c, s).

(** [try { m } catch (err) { handler err }] *)
Definition tryCatch {S A} (m : Eff S A) (handler : JsError -> Eff S A) : Eff S A :=
  fun s =>
    match m s with
    | (Normal a, s') => (Normal a, s')
    | (Throw e, s') => handler e s'
    end.

(** [try { m } finally { fin }] *)
Definition tryFinally {S A} (m : Eff S A) (fin : Eff S unit) : Eff S A :=
  fun s =>
    let (r, s') := m s in
    match fin s' with
    | (Normal _, s'') => (r, s'')
    | (Throw e, s'') => (Throw e, s'')
    end.

Definition get {S} : Eff S S := fun s => (Normal s, s).
Definition modify {S} (f : S -> S) : Eff S unit := fun s => (Normal tt, f s).

End Js.

Import Js.

Declare Scope eff_scope.
Delimit Scope eff_scope with eff.
Notation "x <- m ;; k" := (bind m (fun x => k))
  (at level 61, m at next level, right associativity) : eff_scope.
Notation "m ;;; k" := (bind m (fun _ => k))
  (at level 61, right associativity) : eff_scope.
Local Open Scope eff_scope.

(* ===================================================================== *)
(** ** frontend/src/services/api.js *)
(* ===================================================================== *)

Module Api.

Definition BASE_URL : string := "http://localhost:5000".

(** The options object handed to [fetch]. *)
Record FetchOptions : Type := {
  method : string;
  headers : list (string * string);
  body : JsonText
}.

(** What [fetch] resolves with: the status and the outcome of
    [response.json()]. *)
Record Response : Type := {
  status : Z;
  json : Completion JsVal
}.

(** [response.ok]: the status is in the range 200-299. *)
Definition ok (r : Response) : bool :=
  ((200 <=? status r) && (status r <=? 299))%Z.

(** The record of outbound calls, oldest first. *)
Definition Log : Type := list (string * FetchOptions).

(** The network: what [fetch] does for a request, given the calls made
    before it. *)
Definition Network : Type := Log -> string -> FetchOptions -> Completion Response.

Section WithNetwork.

Variable net : Network.

Definition fetch (url : string) (options : FetchOptions) : Eff Log Response :=
  fun log => (net log url options, log ++ [(url, options)]).

Definition handleRequest (url : string) (options : FetchOptions) : Eff Log JsVal :=
  tryCatch
    (response <- fetch url options ;;
     if negb (ok response) then
       data <- await (json response) ;;
       e <- await (getProp data "error") ;;
       ret (JObj [("error", if truthy e then e else JStr "Request failed")])
     else
       await (json response))
    (fun err =>
       ret (JObj [("error", JStr ("Network error: " ++ err_message err))])).

Definition createPostOptions (body : JsVal) : FetchOptions :=
  {| method := "POST";
     headers := [("Content-Type", "application/json")];
     body := JSON_stringify body |}.

Definition isValidStringInput (input : JsVal) : bool :=
  match input with
  | JStr s => (0 <? String.length (trim s))%nat
  | _ => false
  end.

Definition runSmartSQL (query : JsVal) : Eff Log JsVal :=
  if negb (isValidStringInput query) then
    ret (JObj [("error", JStr "Query cannot be empty")])
  else
    handleRequest (BASE_URL ++ "/api/smartsql")
      (createPostOptions (JObj [("query", query)])).

End WithNetwork.

End Api.

(* ===================================================================== *)
(** ** The Raindrop function: [handleQuery] of the worker script *)
(* ===================================================================== *)

Module Worker.

(** Calls made to a provider binding, oldest first. *)
Inductive ProviderCall : Type :=
| CallSmartSQL (q : string)     (* env.SSQL.run(q) *)
| CallD1 (q : string).          (* env.DB.prepare(q).all() *)

Definition Log : Type := list ProviderCall.

(** The bindings of [env]; what a call answers may depend on the calls
    made before it. *)
Record SmartSQL : Type := { run : Log -> string -> Completion JsVal }.
Record D1PreparedStatement : Type := { all : Log -> Completion JsVal }.
Record D1Database : Type := { prepare : string -> Completion D1PreparedStatement }.

Record Env : Type := {
  SSQL : option SmartSQL;
  DB : option D1Database
}.

(** The readings of the clock during one request: the two [Date.now()]
    and [new Date().toISOString()]. *)
Record Clock : Type := {
  startNow : Z;
  endNow : Z;
  isoNow : string
}.

Record Request : Type := { json : Completion JsVal }.

Record Response : Type := {
  status : Z;
  headers : list (string * string);
  body : JsonText
}.

Definition getCORSHeaders : list (string * string) :=
  [("Access-Control-Allow-Origin", "*");
   ("Access-Control-Allow-Methods", "GET, POST, PUT, DELETE, OPTIONS");
   ("Access-Control-Allow-Headers", "Content-Type, Authorization");
   ("Content-Type", "application/json")].

(** [new Response(JSON.stringify(v), { status, headers: getCORSHeaders() })] *)
Definition respond (v : JsVal) (st : Z) : Response :=
  {| status := st; headers := getCORSHeaders; body := JSON_stringify v |}.

Definition failure (msg : string) : JsVal :=
  JObj [("success", JBool false); ("error", JStr msg)].

Definition sqlKeywords : list string :=
  ["SELECT"; "INSERT"; "UPDATE"; "DELETE"; "CREATE"; "DROP"; "ALTER"; "PRAGMA"].

Definition isRawSQL (trimmedQuery : string) : bool :=
  existsb (fun keyword => startsWith (trim (toUpperCase trimmedQuery)) keyword)
          sqlKeywords.

Definition callRun (ssql : SmartSQL) (q : string) : Eff Log JsVal :=
  fun log => (run ssql log q, log ++ [CallSmartSQL q]).

Definition callAll (stmt : D1PreparedStatement) (q : string) : Eff Log JsVal :=
  fun log => (all stmt log, log ++ [CallD1 q]).

Definition metadata (trimmedQuery : string) (clock : Clock) : JsVal :=
  JObj [("query", JStr trimmedQuery);
        ("executionTimeMs", num (endNow clock - startNow clock));
        ("timestamp", JStr (isoNow clock))].

Definition invalidBodyMessage : string :=
  "Request body must contain a " ++ dquote ++ "query" ++ dquote
    ++ " field with a string value".

Definition notConfigured : Response :=
  respond
    (JObj [("success", JBool false);
           ("error", JStr "SmartSQL binding not configured. Natural language queries require SmartSQL.");
           ("hint", JStr "For raw SQL, start your query with SELECT, INSERT, UPDATE, etc.")])
    400.

(** The body of the inner [try] block of [handleQuery]: SmartSQL first,
    then D1 for raw SQL, else the not-configured answer. *)
Definition executeQuery (env : Env) (clock : Clock) (trimmedQuery : string)
  : Eff Log Response :=
  match SSQL env with
  | Some ssql =>
      result <- callRun ssql trimmedQuery ;;
      sql <- await (getProp result "sql") ;;
      results <- await (getProp result "results") ;;
      rows <- (if truthy results then ret results
               else await (getProp result "rows")) ;;
      ret (respond
             (JObj [("success", JBool true);
                    ("sql", if truthy sql then sql else JStr trimmedQuery);
                    ("results", if truthy rows then rows else JArr []);
                    ("metadata", metadata trimmedQuery clock)])
             200)
  | None =>
      match DB env with
      | Some db =>
          if isRawSQL trimmedQuery then
            stmt <- await (prepare db trimmedQuery) ;;
            queryResult <- callAll stmt trimmedQuery ;;
            results <- await (getProp queryResult "results") ;;
            ret (respond
                   (JObj [("success", JBool true);
                          ("sql", JStr trimmedQuery);
                          ("results", if truthy results then results else JArr []);
                          ("metadata", metadata trimmedQuery clock)])
                   200)
          else ret notConfigured
      | None => ret notConfigured
      end
  end.

Definition handleQuery (request : Request) (env : Env) (clock : Clock)
  : Eff Log Response :=
  tryCatch
    (body <- await (json request) ;;
     query <- await (getProp body "query") ;;
     if negb (truthy query) || negb (isString query) then
       ret (respond (failure invalidBodyMessage) 400)
     else
       match query with
       | JStr q =>
           let trimmedQuery := trim q in
           if isEmpty trimmedQuery then
             ret (respond (failure "Query cannot be empty") 400)
           else
             tryCatch
               (executeQuery env clock trimmedQuery)
               (fun sqlError =>
                  ret (respond
                         (failure (if isEmpty (err_message sqlError)
                                   then "Query execution failed"
                                   else err_message sqlError))
                         500))
       | _ => ret (respond (failure invalidBodyMessage) 400)
       end)
    (fun error => ret (respond (failure "Invalid JSON in request body") 400)).

(** A worker serving a sequence of requests with one [env]. *)
Fixpoint serve (env : Env) (reqs : list (Request * Clock)) : Eff Log (list Response) :=
  match reqs with
  | [] => ret []
  | (request, clock) :: rest =>
      r <- handleQuery request env clock ;;
      rs <- serve env rest ;;
      ret (r :: rs)
  end.

End Worker.

(* ===================================================================== *)
(** ** The AnalyticsDashboard component *)
(* ===================================================================== *)

Module Dashboard.

(** [Object.keys] lists the array-index keys first, in increasing order,
    then the other keys in insertion order. *)
Definition isDigit (c : ascii) : bool :=
  let n := nat_of_ascii c in ((48 <=? n) && (n <=? 57))%nat.

Fixpoint digitsValue (acc : N) (s : string) : option N :=
  match s with
  | EmptyString => Some acc
  | String c r =>
      if isDigit c
      then digitsValue (acc * 10 + (N_of_ascii c - 48))%N r
      else None
  end.

(** The canonical decimal strings of 0 .. 2^32 - 2. *)
Definition arrayIndex (k : string) : option N :=
  match k with
  | EmptyString => None
  | String c r =>
      if (nat_of_ascii c =? 48)%nat && negb (isEmpty r) then None
      else
        match digitsValue 0 k with
        | Some n => if (n <=? 4294967294)%N then Some n else None
        | None => None
        end
  end.

Fixpoint leastIndexKey (props : list (string * JsVal)) (best : option (N * string))
  : option (N * string) :=
  match props with
  | [] => best
  | (k, _) :: rest =>
      match arrayIndex k, best with
      | Some n, Some (m, _) =>
          leastIndexKey rest (if (n <? m)%N then Some (n, k) else best)
      | Some n, None => leastIndexKey rest (Some (n, k))
      | None, _ => leastIndexKey rest best
      end
  end.

(** [Object.keys(obj)[0]] for an object. *)
Definition firstKey (props : list (string * JsVal)) : option string :=
  match leastIndexKey props None with
  | Some (_, k) => Some k
  | None => match props with [] => None | (k, _) :: _ => Some k end
  end.

Definition toObjectError : JsError :=
  mkError "TypeError" "Cannot convert undefined or null to object".

(** [const keys = Object.keys(firstRow); keys.length > 0 ? firstRow[keys[0]] : null] *)
Definition firstValueOfRow (firstRow : JsVal) : Completion JsVal :=
  match firstRow with
  | JUndefined | JNull => Throw toObjectError
  | JObj props =>
      match firstKey props with
      | Some k => getProp firstRow k
      | None => Normal JNull
      end
  | JArr (x :: _) => Normal x
  | JStr (String c _) => Normal (JStr (String c EmptyString))
  | _ => Normal JNull
  end.

(** [v > 0] for the value of a [length] property.  A string or an array
    would first be converted to a number; the model does not cover that
    conversion and takes the comparison to fail for them. *)
Definition greaterThanZero (v : JsVal) : bool :=
  match v with
  | JNum q => (0 <? Qnum q)%Z
  | JBool b => b
  | _ => false
  end.

(** The [value] that [loadMetric] extracts from a result without error:
    [result.results && result.results.length > 0] guards the read of the
    first row. *)
Definition extractValue (result : JsVal) : Completion JsVal :=
  match getProp result "results" with
  | Throw e => Throw e
  | Normal results =>
      match results with
      | JArr (firstRow :: _) => firstValueOfRow firstRow
      | JStr (String c _) => firstValueOfRow (JStr (String c EmptyString))
      | JObj props =>
          match assoc "length" props with
          | Some len =>
              if greaterThanZero len then
                match getProp results "0" with
                | Normal firstRow => firstValueOfRow firstRow
                | Throw e => Throw e
                end
              else Normal JNull
          | None => Normal JNull
          end
      | _ => Normal JNull
      end
  end.

(** [a ?? b] *)
Definition nullish (a b : JsVal) : JsVal :=
  match a with JUndefined | JNull => b | _ => a end.

(** [obj[k]] for an own key, [undefined] otherwise. *)
Definition index (obj : list (string * JsVal)) (k : string) : JsVal :=
  match assoc k obj with Some v => v | None => JUndefined end.

Definition DEMO_METRICS : list (string * JsVal) :=
  [("revenue", num 125750);
   ("outstanding", num 12);
   ("vatDue", JNum (Qmake 37725 2))].

Definition demoRow (id : Z) (invoice_number client_name : string)
           (total_incl_vat : Z) (status : string) : JsVal :=
  JObj [("id", num id);
        ("invoice_number", JStr invoice_number);
        ("client_name", JStr client_name);
        ("total_incl_vat", num total_incl_vat);
        ("status", JStr status)].

Definition DEMO_QUERY_RESULTS_sql : string :=
  "SELECT * FROM invoices ORDER BY created_at DESC LIMIT 5".

Definition DEMO_QUERY_RESULTS_results : JsVal :=
  JArr [demoRow 1 "INV-001" "Acme Corp" 11500 "paid";
        demoRow 2 "INV-002" "Tech Solutions" 8625 "pending";
        demoRow 3 "INV-003" "Global Trade" 23000 "paid";
        demoRow 4 "INV-004" "Local Services" 5750 "overdue";
        demoRow 5 "INV-005" "StartUp Inc" 17250 "pending"].

Definition DEMO_QUERY_RESULTS : list (string * JsVal) :=
  [("sql", JStr DEMO_QUERY_RESULTS_sql);
   ("results", DEMO_QUERY_RESULTS_results)].

(** The component's state ([useState] cells) and the outbound calls. *)
Record State : Type := mkState {
  metrics : list (string * JsVal);
  isLoadingMetrics : list (string * JsVal);
  metricsError : list (string * JsVal);
  query : string;
  queryResults : JsVal;
  isQuerying : bool;
  error : JsVal;
  requests : Api.Log
}.

Definition setMetrics (f : list (string * JsVal) -> list (string * JsVal))
  : Eff State unit :=
  modify (fun st =>
    mkState (f (metrics st)) (isLoadingMetrics st) (metricsError st) (query st)
            (queryResults st) (isQuerying st) (error st) (requests st)).

Definition setIsLoadingMetrics (f : list (string * JsVal) -> list (string * JsVal))
  : Eff State unit :=
  modify (fun st =>
    mkState (metrics st) (f (isLoadingMetrics st)) (metricsError st) (query st)
            (queryResults st) (isQuerying st) (error st) (requests st)).

Definition setMetricsError (f : list (string * JsVal) -> list (string * JsVal))
  : Eff State unit :=
  modify (fun st =>
    mkState (metrics st) (isLoadingMetrics st) (f (metricsError st)) (query st)
            (queryResults st) (isQuerying st) (error st) (requests st)).

Definition setQueryResults (v : JsVal) : Eff State unit :=
  modify (fun st =>
    mkState (metrics st) (isLoadingMetrics st) (metricsError st) (query st)
            v (isQuerying st) (error st) (requests st)).

Definition setIsQuerying (b : bool) : Eff State unit :=
  modify (fun st =>
    mkState (metrics st) (isLoadingMetrics st) (metricsError st) (query st)
            (queryResults st) b (error st) (requests st)).

Definition setError (v : JsVal) : Eff State unit :=
  modify (fun st =>
    mkState (metrics st) (isLoadingMetrics st) (metricsError st) (query st)
            (queryResults st) (isQuerying st) v (requests st)).

(** A call into the API module: it only touches the record of requests. *)
Definition callApi {A} (m : Eff Api.Log A) : Eff State A :=
  fun st =>
    let (r, log) := m (requests st) in
    (r, mkState (metrics st) (isLoadingMetrics st) (metricsError st) (query st)
                (queryResults st) (isQuerying st) (error st) log).

Definition notAFunction : JsError :=
  mkError "TypeError" "result.error.includes is not a function".

(** [v.includes(sub)]: a method of strings and of arrays only. *)
Definition includesMethod (v : JsVal) (sub : string) : Completion bool :=
  match v with
  | JStr s => Normal (includes s sub)
  | JArr items =>
      Normal (existsb (fun x => match x with
                                | JStr s => String.eqb s sub
                                | _ => false
                                end) items)
  | JUndefined | JNull => Throw (cannotRead v "includes")
  | _ => Throw notAFunction
  end.

Definition demoSql (trimmedQuery : string) : string :=
  "-- Demo mode: SmartSQL not configured" ++ newline
    ++ "-- Your query: " ++ dquote ++ trimmedQuery ++ dquote ++ newline
    ++ DEMO_QUERY_RESULTS_sql.

Section WithNetwork.

Variable net : Api.Network.

Definition loadMetric (metricKey queryText : string) : Eff State unit :=
  setIsLoadingMetrics (fun prev => setProp prev metricKey (JBool true)) ;;;
  setMetricsError (fun prev => setProp prev metricKey JNull) ;;;
  tryFinally
    (tryCatch
       (result <- callApi (Api.runSmartSQL net (JStr queryText)) ;;
        e <- await (getProp result "error") ;;
        if truthy e then
          setMetrics (fun prev => setProp prev metricKey (index DEMO_METRICS metricKey))
        else
          value <- await (extractValue result) ;;
          setMetrics (fun prev =>
            setProp prev metricKey (nullish value (index DEMO_METRICS metricKey))))
       (fun err =>
          setMetrics (fun prev => setProp prev metricKey (index DEMO_METRICS metricKey))))
    (setIsLoadingMetrics (fun prev => setProp prev metricKey (JBool false))).

(** The three loads are started in this order without being awaited.
    Each issues its [fetch] before yielding and updates only the entries
    of its own key, so they are run one after the other here. *)
Definition loadInitialMetrics : Eff State unit :=
  loadMetric "revenue" "Total revenue this month" ;;;
  loadMetric "outstanding" "Outstanding invoices count" ;;;
  loadMetric "vatDue" "Total VAT due this month".

(** The submit handler; [e.preventDefault()] has no effect on the state
    and is left out.  [query] and [isQuerying] are read from the state
    of the render that installed the handler. *)
Definition handleQuerySubmit : Eff State unit :=
  st <- get ;;
  let trimmedQuery := trim (query st) in
  if isEmpty trimmedQuery || isQuerying st then ret tt
  else
    setIsQuerying true ;;;
    setError JNull ;;;
    setQueryResults JNull ;;;
    tryFinally
      (tryCatch
         (result <- callApi (Api.runSmartSQL net (JStr trimmedQuery)) ;;
          e <- await (getProp result "error") ;;
          if truthy e then
            has400 <- await (includesMethod e "400") ;;
            demo <- (if has400 then ret true
                     else await (includesMethod e "SmartSQL")) ;;
            if demo then
              setQueryResults
                (JObj (setProp DEMO_QUERY_RESULTS "sql" (JStr (demoSql trimmedQuery))))
            else setError e
          else setQueryResults result)
         (fun err => setError (JStr "An unexpected error occurred")))
      (setIsQuerying false).

End WithNetwork.

End Dashboard.

(* ===================================================================== *)
(** ** Vocabulary of the properties *)
(* ===================================================================== *)

(** A field counts as populated when it is there and is neither
    [undefined] nor [null]. *)
Definition isNullish (v : JsVal) : bool :=
  match v with JUndefined | JNull => true | _ => false end.

Definition populated (v : JsVal) (k : string) : bool :=
  match lookupProp v k with
  | Some x => negb (isNullish x)
  | None => false
  end.

(** The two groups of a result: the SQL with its rows, and the error. *)
Definition successGroup (v : JsVal) : bool :=
  populated v "sql" && populated v "results".

Definition errorGroup (v : JsVal) : bool := populated v "error".

Definition exactlyOneGroup (v : JsVal) : bool :=
  xorb (successGroup v) (errorGroup v).

(** The one request that [runSmartSQL] can send for a query. *)
Definition smartsqlUrl : string := Api.BASE_URL ++ "/api/smartsql".

Definition smartsqlOptions (query : JsVal) : Api.FetchOptions :=
  Api.createPostOptions (JObj [("query", query)]).

Definition errorResult (e : JsVal) : JsVal := JObj [("error", e)].

Definition networkError (err : JsError) : JsVal :=
  errorResult (JStr ("Network error: " ++ err_message err)).

(** The parsed body of the 2xx response that the network gives to a
    valid query, when there is one. *)
Definition parsedSuccessBody (net : Api.Network) (query : JsVal) (log : Api.Log)
  : option JsVal :=
  if Api.isValidStringInput query then
    match net log smartsqlUrl (smartsqlOptions query) with
    | Normal response =>
        if Api.ok response then
          match Api.json response with
          | Normal data => Some data
          | Throw _ => None
          end
        else None
    | Throw _ => None
    end
  else None.

(** [s] starts with [p] when case is ignored: the upper-cased strings are
    in the prefix relation. *)
Definition startsWithIgnoreCase (s p : string) : bool :=
  startsWith (toUpperCase s) (toUpperCase p).

Definition startsWithSqlKeyword (s : string) : bool :=
  existsb (startsWithIgnoreCase s) Worker.sqlKeywords.

(** The provider policy in the words of the specification: the primary
    provider when its binding is configured, else the secondary one when
    it is configured, else none. *)
Inductive ProviderSelection : Type := Primary | Secondary | Unconfigured.

Definition configuredSelection (env : Worker.Env) : ProviderSelection :=
  match Worker.SSQL env, Worker.DB env with
  | Some _, _ => Primary
  | None, Some _ => Secondary
  | None, None => Unconfigured
  end.

Definition providerOf (c : Worker.ProviderCall) : ProviderSelection :=
  match c with
  | Worker.CallSmartSQL _ => Primary
  | Worker.CallD1 _ => Secondary
  end.

(** The provider calls that a request with the trimmed query [t] makes
    under [env]: SmartSQL when it is bound; else D1, when it is bound and
    [t] starts with a SQL keyword (and the statement could be prepared);
    else none. *)
Definition expectedCalls (env : Worker.Env) (t : string) : list Worker.ProviderCall :=
  match Worker.SSQL env with
  | Some _ => [Worker.CallSmartSQL t]
  | None =>
      match Worker.DB env with
      | Some db =>
          if startsWithSqlKeyword t then
            match Worker.prepare db t with
            | Normal _ => [Worker.CallD1 t]
            | Throw _ => []
            end
          else []
      | None => []
      end
  end.

(** The answer of [handleQuery] when the provider call throws. *)
Definition queryFailed (sqlError : JsError) : Worker.Response :=
  Worker.respond
    (Worker.failure (if isEmpty (err_message sqlError)
                     then "Query execution failed"
                     else err_message sqlError))
    500.

(** What the dashboard shows for a query answered with demo data. *)
Definition demoQueryResults (trimmedQuery : string) : JsVal :=
  JObj [("sql", JStr (Dashboard.demoSql trimmedQuery));
        ("results", Dashboard.DEMO_QUERY_RESULTS_results)].

Definition notConfiguredError : JsVal :=
  JObj [("error", JStr "SmartSQL binding not configured")].

(** Sample networks and bindings. *)
Definition answering (st : Z) (b : Completion JsVal) : Api.Network :=
  fun _ _ _ => Normal {| Api.status := st; Api.json := b |}.

Definition noSuchTable : Api.Response :=
  {| Api.status := 404;
     Api.json := Normal (JObj [("error", JStr "No such table")]) |}.

Definition truncatedBody : Api.Response :=
  {| Api.status := 200;
     Api.json := Throw (mkError "SyntaxError" "Unexpected end of JSON input") |}.

Definition respondingWith (r : Api.Response) : Api.Network :=
  fun _ _ _ => Normal r.

Definition unreachable : Api.Network :=
  fun _ _ _ => Throw (mkError "TypeError" "Failed to fetch").

Definition invoicesBody : JsVal :=
  JObj [("success", JBool true);
        ("sql", JStr "SELECT * FROM invoices");
        ("results", JArr [JObj [("id", num 1)]])].

Definition sampleD1 : Worker.D1Database :=
  {| Worker.prepare := fun _ =>
       Normal {| Worker.all := fun _ => Normal (JObj [("results", JArr [])]) |} |}.

Definition d1Only : Worker.Env :=
  {| Worker.SSQL := None; Worker.DB := Some sampleD1 |}.

Definition sampleClock : Worker.Clock :=
  {| Worker.startNow := 1000; Worker.endNow := 1125;
     Worker.isoNow := "2024-01-20T12:34:56.789Z" |}.

Definition asking (q : string) : Worker.Request :=
  {| Worker.json := Normal (JObj [("query", JStr q)]) |}.

Definition initialState (q : string) : Dashboard.State :=
  Dashboard.mkState
    [("revenue", JNull); ("outstanding", JNull); ("vatDue", JNull)]
    [("revenue", JBool true); ("outstanding", JBool true); ("vatDue", JBool true)]
    [("revenue", JNull); ("outstanding", JNull); ("vatDue", JNull)]
    q JNull false JNull [].

Definition noLeadingSpace (s : string) : Prop :=
  match s with
  | EmptyString => True
  | String c _ => isWhiteSpace c = false
  end.

(* ===================================================================== *)
(** ** The other requests of api.js *)
(* ===================================================================== *)

Module ApiRest.

(** A [Blob]: its media type and its content. *)
Record Blob : Type := { blobType : string; blobData : string }.

(** What the functions of the module resolve with: plain data, or the
    [Blob] of an audio or PDF response. *)
Inductive Result : Type :=
| Data (v : JsVal)
| Binary (b : Blob).

(** A response with the parts that the voice and PDF requests read:
    [response.headers.get('content-type')] ([None] for [null]) and the
    outcome of [response.blob()]. *)
Record Response : Type := {
  base : Api.Response;
  contentType : option string;
  blob : Completion Blob
}.

Definition Network : Type :=
  Api.Log -> string -> Api.FetchOptions -> Completion Response.

(** The same network, seen by the code that reads only the status and
    the JSON body. *)
Definition plain (net : Network) : Api.Network :=
  fun log url options =>
    match net log url options with
    | Normal r => Normal (base r)
    | Throw e => Throw e
    end.

(** [x !== undefined && x !== null] *)
Definition given (x : JsVal) : bool :=
  match x with JUndefined | JNull => false | _ => true end.

(** [if (given x) body.k = x] *)
Definition withOptional (body : list (string * JsVal)) (k : string) (x : JsVal)
  : list (string * JsVal) :=
  if given x then setProp body k x else body.

Definition emptyMessage : JsVal := JObj [("error", JStr "Message cannot be empty")].

Section WithPlainNetwork.

Variable net : Api.Network.

Definition sendMessage (message context : JsVal) : Eff Api.Log JsVal :=
  if negb (Api.isValidStringInput message) then ret emptyMessage
  else
    let body := withOptional [("message", message)] "context" context in
    Api.handleRequest net (Api.BASE_URL ++ "/api/chat")
      (Api.createPostOptions (JObj body)).

Definition generateInvoice (business_id client_name items client_vat due_date : JsVal)
  : Eff Api.Log JsVal :=
  if negb (Api.isValidStringInput business_id) then
    ret (JObj [("error", JStr "business_id is required")])
  else if negb (Api.isValidStringInput client_name) then
    ret (JObj [("error", JStr "client_name is required")])
  else
    match items with
    | JArr (_ :: _) =>
        let body :=
          withOptional
            (withOptional
               [("business_id", business_id);
                ("client_name", client_name);
                ("items", items)]
               "client_vat" client_vat)
            "due_date" due_date in
        Api.handleRequest net (Api.BASE_URL ++ "/api/invoice/generate")
          (Api.createPostOptions (JObj body))
    | _ =>
        ret (JObj [("error", JStr "items is required and must be a non-empty array")])
    end.

End WithPlainNetwork.

Section WithNetwork.

Variable net : Network.

Definition fetch (url : string) (options : Api.FetchOptions) : Eff Api.Log Response :=
  fun log => (net log url options, log ++ [(url, options)]).

(** [contentType && contentType.includes('audio/')] *)
Definition isAudio (contentType : option string) : bool :=
  match contentType with
  | Some ct => negb (isEmpty ct) && includes ct "audio/"
  | None => false
  end.

Definition sendMessageWithVoice (message context voice_id : JsVal)
  : Eff Api.Log Result :=
  if negb (Api.isValidStringInput message) then ret (Data emptyMessage)
  else
    let body :=
      withOptional
        (withOptional [("message", message); ("enable_voice", JBool true)]
                      "context" context)
        "voice_id" voice_id in
    tryCatch
      (response <- fetch (Api.BASE_URL ++ "/api/chat/voice")
                         (Api.createPostOptions (JObj body)) ;;
       if negb (Api.ok (base response)) then
         data <- await (Api.json (base response)) ;;
         e <- await (getProp data "error") ;;
         ret (Data (JObj [("error", if truthy e then e else JStr "Request failed")]))
       else if isAudio (contentType response) then
         b <- await (blob response) ;;
         ret (Binary b)
       else
         data <- await (Api.json (base response)) ;;
         voice_error <- await (getProp data "voice_error") ;;
         if truthy voice_error then
           response_text <- await (getProp data "response") ;;
           ret (Data (JObj [("response", response_text);
                            ("voice_error", voice_error)]))
         else ret (Data data))
      (fun err =>
         ret (Data (JObj [("error", JStr ("Network error: " ++ err_message err))]))).

End WithNetwork.

(** [downloadInvoicePdf] calls [fetch(url)] with no options: the record
    of its calls is the list of the addresses fetched. *)
Definition GetNetwork : Type := list string -> string -> Completion Response.

Section WithGetNetwork.

Variable net : GetNetwork.

Definition fetchGet (url : string) : Eff (list string) Response :=
  fun log => (net log url, log ++ [url]).

Definition downloadInvoicePdf (invoice_id : JsVal) : Eff (list string) Result :=
  match invoice_id with
  | JStr id =>
      if negb (Api.isValidStringInput invoice_id) then
        ret (Data (JObj [("error", JStr "invoice_id is required")]))
      else
        tryCatch
          (response <- fetchGet (Api.BASE_URL ++ "/api/invoice/" ++ id ++ "/pdf") ;;
           if negb (Api.ok (base response)) then
             data <- await (Api.json (base response)) ;;
             e <- await (getProp data "error") ;;
             ret (Data (JObj [("error",
                               if truthy e then e else JStr "Failed to download PDF")]))
           else
             b <- await (blob response) ;;
             ret (Binary b))
          (fun err =>
             ret (Data (JObj [("error", JStr ("Network error: " ++ err_message err))])))
  | _ => ret (Data (JObj [("error", JStr "invoice_id is required")]))
  end.

End WithGetNetwork.

End ApiRest.

(* ===================================================================== *)
(** ** The worker script: routing *)
(* ===================================================================== *)

Module WorkerRouter.

(** The request as the router reads it: the method, the outcome of
    [new URL(request.url).pathname], and the body reader handed on to
    [handleQuery]. *)
Record Request : Type := {
  method : string;
  pathname : Completion string;
  inner : Worker.Request
}.

(** A response whose body may be [null] (the preflight answer). *)
Record Response : Type := {
  status : Z;
  headers : list (string * string);
  body : option JsonText
}.

Definition respond (v : JsVal) (st : Z) : Response :=
  {| status := st; headers := Worker.getCORSHeaders;
     body := Some (JSON_stringify v) |}.

Definition ofWorker (r : Worker.Response) : Response :=
  {| status := Worker.status r; headers := Worker.headers r;
     body := Some (Worker.body r) |}.

Definition handleCORS : Response :=
  {| status := 200; headers := Worker.getCORSHeaders; body := None |}.

Definition handleRoot : Response :=
  respond
    (JObj [("message", JStr "SmartBiz Query API");
           ("deployment", JStr "Raindrop SmartSQL");
           ("endpoints",
            JObj [("POST /query",
                   JStr "Execute natural language database queries via SmartSQL");
                  ("GET /health", JStr "Health check endpoint")]);
           ("usage",
            JObj [("query",
                   JStr ("POST { " ++ dquote ++ "query" ++ dquote ++ ": " ++ dquote
                           ++ "your natural language query here" ++ dquote
                           ++ " } to /query"))])])
    200.

Definition handleHealth (clock : Worker.Clock) : Response :=
  respond
    (JObj [("status", JStr "healthy");
           ("deployment", JStr "Raindrop SmartSQL");
           ("timestamp", JStr (Worker.isoNow clock));
           ("version", JStr "1.0.0")])
    200.

Definition notFound : Response :=
  respond (JObj [("error", JStr "Not Found");
                 ("message", JStr "Endpoint not found")])
          404.

Definition internalError : Response :=
  respond (JObj [("error", JStr "Internal Server Error");
                 ("message", JStr "An unexpected error occurred")])
          500.

(** What the [try] block of [fetch] returns: a response built on the
    spot, or the promise of [handleQuery], which is returned without
    being awaited and so runs outside the [try]. *)
Inductive Routed : Type :=
| Immediate (r : Response)
| ToHandleQuery.

Definition route (request : Request) (clock : Worker.Clock) : Eff Worker.Log Routed :=
  tryCatch
    (path <- await (pathname request) ;;
     if String.eqb path "/" && String.eqb (method request) "GET" then
       ret (Immediate handleRoot)
     else if String.eqb path "/health" && String.eqb (method request) "GET" then
       ret (Immediate (handleHealth clock))
     else if String.eqb path "/query" && String.eqb (method request) "POST" then
       ret ToHandleQuery
     else ret (Immediate notFound))
    (fun error => ret (Immediate internalError)).

(** The [fetch] handler exported by the script. *)
Definition fetch (request : Request) (env : Worker.Env) (clock : Worker.Clock)
  : Eff Worker.Log Response :=
  if String.eqb (method request) "OPTIONS" then ret handleCORS
  else
    routed <- route request clock ;;
    match routed with
    | Immediate r => ret r
    | ToHandleQuery =>
        r <- Worker.handleQuery (inner request) env clock ;;
        ret (ofWorker r)
    end.

End WorkerRouter.

(* ===================================================================== *)
(** ** The Express server and its SmartSQL binding *)
(* ===================================================================== *)

Module Server.

(** An error of the database client, with its [code]. *)
Record ClientError : Type := { code : string; cause : JsError }.

Definition row (cells : list JsVal) : JsVal := JArr cells.

Definition table (columns : list string) (rows : list (list JsVal)) (rowCount : Z)
  : JsVal :=
  JObj [("columns", JArr (map JStr columns));
        ("rows", JArr (map row rows));
        ("rowCount", num rowCount)].

Definition lowerChar (c : ascii) : ascii :=
  let n := nat_of_ascii c in
  if ((65 <=? n) && (n <=? 90))%nat then ascii_of_nat (n + 32) else c.

(** [String.prototype.toLowerCase] *)
Fixpoint toLowerCase (s : string) : string :=
  match s with
  | EmptyString => EmptyString
  | String c r => String (lowerChar c) (toLowerCase r)
  end.

(** smartsql-binding.js, [_mockExecute]; the simulated delay is left
    out. *)
Definition _mockExecute (query : string) : JsVal + ClientError :=
  let lowerQuery := toLowerCase query in
  if includes lowerQuery "users" then
    inl (table ["id"; "name"; "email"; "created_at"]
               [[num 1; JStr "John Doe"; JStr "john@example.com";
                 JStr "2024-01-15T10:30:00Z"];
                [num 2; JStr "Jane Smith"; JStr "jane@example.com";
                 JStr "2024-01-16T14:22:00Z"];
                [num 3; JStr "Bob Wilson"; JStr "bob@example.com";
                 JStr "2024-01-17T09:15:00Z"]]
               3)
  else if includes lowerQuery "products" then
    inl (table ["id"; "name"; "price"; "category"]
               [[num 1; JStr "Laptop"; JNum (Qmake 99999 100); JStr "Electronics"];
                [num 2; JStr "Mouse"; JNum (Qmake 2999 100); JStr "Electronics"];
                [num 3; JStr "Desk Chair"; JNum (Qmake 19999 100); JStr "Furniture"]]
               3)
  else if includes lowerQuery "count" then
    inl (table ["count"] [[num 42]] 1)
  else
    inl (table ["result"] [[JStr "Query executed successfully"]] 1).

(** smartsql-binding.js, [execute]: the errors of the client are
    wrapped by their code. *)
Definition execute (query : string) : Completion JsVal :=
  match _mockExecute query with
  | inl mockResult => Normal mockResult
  | inr error =>
      if String.eqb (code error) "SYNTAX_ERROR" then
        Throw (mkError "ValidationError" "Query syntax error")
      else if String.eqb (code error) "DATABASE_ERROR" then
        Throw (mkError "DatabaseError" "Database connection error")
      else Throw (cause error)
  end.

(** The binding held by the server; the queries executed so far are
    recorded. *)
Definition Log : Type := list string.

Record SmartSQL : Type := { smartsql_execute : Log -> string -> Completion JsVal }.

(** The binding of smartsql-binding.js. *)
Definition mockBinding : SmartSQL :=
  {| smartsql_execute := fun _ query => execute query |}.

Record Response : Type := { status : Z; body : JsVal }.

Definition badRequest (message : string) : Response :=
  {| status := 400;
     body := JObj [("error", JStr "Bad Request"); ("message", JStr message)] |}.

Definition callExecute (smartsql : SmartSQL) (q : string) : Eff Log JsVal :=
  fun log => (smartsql_execute smartsql log q, log ++ [q]).

(** [app.post('/query', ...)]; [body] is [req.body]. *)
Definition postQuery (smartsql : SmartSQL) (body : JsVal) (clock : Worker.Clock)
  : Eff Log Response :=
  tryCatch
    (query <- await (getProp body "query") ;;
     if negb (truthy query) || negb (isString query) then
       ret (badRequest Worker.invalidBodyMessage)
     else
       match query with
       | JStr q =>
           let trimmedQuery := trim q in
           if isEmpty trimmedQuery then ret (badRequest "Query cannot be empty")
           else
             results <- callExecute smartsql trimmedQuery ;;
             ret {| status := 200;
                    body := JObj [("success", JBool true);
                                  ("data", results);
                                  ("metadata", Worker.metadata trimmedQuery clock)] |}
       | _ => ret (badRequest Worker.invalidBodyMessage)
       end)
    (fun error =>
       if String.eqb (err_name error) "ValidationError" then
         ret {| status := 400;
                body := JObj [("error", JStr "Validation Error");
                              ("message", JStr (err_message error))] |}
       else if String.eqb (err_name error) "DatabaseError" then
         ret {| status := 500;
                body := JObj [("error", JStr "Database Error");
                              ("message",
                               JStr "Failed to execute query against database")] |}
       else
         ret {| status := 500;
                body := JObj [("error", JStr "Internal Server Error");
                              ("message",
                               JStr "An unexpected error occurred while processing your query")] |}).

End Server.

(* ===================================================================== *)
(** ** The ChatInterface component *)
(* ===================================================================== *)

Module Chat.

(** The component's state, the outbound calls and the audio handed to
    [playAudio]. *)
Record State : Type := mkState {
  messages : list JsVal;
  inputValue : string;
  isLoading : bool;
  voiceMode : bool;
  error : JsVal;
  requests : Api.Log;
  played : list ApiRest.Blob
}.

Definition setMessages (f : list JsVal -> list JsVal) : Eff State unit :=
  modify (fun st =>
    mkState (f (messages st)) (inputValue st) (isLoading st) (voiceMode st)
            (error st) (requests st) (played st)).

Definition setInputValue (s : string) : Eff State unit :=
  modify (fun st =>
    mkState (messages st) s (isLoading st) (voiceMode st)
            (error st) (requests st) (played st)).

Definition setIsLoading (b : bool) : Eff State unit :=
  modify (fun st =>
    mkState (messages st) (inputValue st) b (voiceMode st)
            (error st) (requests st) (played st)).

Definition setVoiceMode (f : bool -> bool) : Eff State unit :=
  modify (fun st =>
    mkState (messages st) (inputValue st) (isLoading st) (f (voiceMode st))
            (error st) (requests st) (played st)).

Definition setError (v : JsVal) : Eff State unit :=
  modify (fun st =>
    mkState (messages st) (inputValue st) (isLoading st) (voiceMode st)
            v (requests st) (played st)).

(** [playAudio(blob)]: the blob is handed to an [Audio] element; a
    failure of the playback is caught inside. *)
Definition playAudio (b : ApiRest.Blob) : Eff State unit :=
  modify (fun st =>
    mkState (messages st) (inputValue st) (isLoading st) (voiceMode st)
            (error st) (requests st) (played st ++ [b])).

Definition callApi {A} (m : Eff Api.Log A) : Eff State A :=
  fun st =>
    let (r, log) := m (requests st) in
    (r, mkState (messages st) (inputValue st) (isLoading st) (voiceMode st)
                (error st) log (played st)).

Definition message (role : string) (content : JsVal) : JsVal :=
  JObj [("role", JStr role); ("content", content)].

(** The text shown for a voice answer (a loudspeaker sign followed by
    the words), kept as the bytes of the source text. *)
Definition voicePlaceholder : string := "🔊 *Voice response played*".

Definition toggleVoiceMode : Eff State unit := setVoiceMode negb.

Section WithNetwork.

Variable net : ApiRest.Network.

(** [voiceMode ? sendMessageWithVoice(text) : sendMessage(text)] *)
Definition send (voice : bool) (text : string) : Eff State ApiRest.Result :=
  if voice then
    callApi (ApiRest.sendMessageWithVoice net (JStr text) JUndefined JUndefined)
  else
    r <- callApi (ApiRest.sendMessage (ApiRest.plain net) (JStr text) JUndefined) ;;
    ret (ApiRest.Data r).

(** The [try] block shared by the two handlers: the reply is shown, or
    the error is.  A [Blob] has no [error] property. *)
Definition converse (voice : bool) (text : string) : Eff State unit :=
  tryFinally
    (tryCatch
       (result <- send voice text ;;
        match result with
        | ApiRest.Binary b =>
            setMessages (fun prev =>
              prev ++ [message "assistant" (JStr voicePlaceholder)]) ;;;
            playAudio b
        | ApiRest.Data v =>
            e <- await (getProp v "error") ;;
            if truthy e then setError e
            else
              voice_error <- await (getProp v "voice_error") ;;
              response <- await (getProp v "response") ;;
              if truthy response then
                setMessages (fun prev => prev ++ [message "assistant" response])
              else ret tt
        end)
       (fun err => setError (JStr "An unexpected error occurred")))
    (setIsLoading false).

Definition handleSubmit : Eff State unit :=
  st <- get ;;
  let trimmedInput := trim (inputValue st) in
  if isEmpty trimmedInput || isLoading st then ret tt
  else
    setMessages (fun prev => prev ++ [message "user" (JStr trimmedInput)]) ;;;
    setInputValue EmptyString ;;;
    setIsLoading true ;;;
    setError JNull ;;;
    converse (voiceMode st) trimmedInput.

Definition handleSuggestionClick (suggestion : string) : Eff State unit :=
  st <- get ;;
  if isLoading st then ret tt
  else
    setMessages (fun prev => prev ++ [message "user" (JStr suggestion)]) ;;;
    setIsLoading true ;;;
    setError JNull ;;;
    converse (voiceMode st) suggestion.

End WithNetwork.

End Chat.

(* ===================================================================== *)
(** ** The InvoiceGenerator component: the line items *)
(* ===================================================================== *)

Module Invoice.

(** A line item is an object; the list of them is the state
    [lineItems]. *)
Definition Item : Type := list (string * JsVal).

Definition blankItem : Item :=
  [("description", JStr EmptyString); ("quantity", num 1); ("unitPrice", num 0)].

Definition initialLineItems : list Item := [blankItem].

Definition addLineItem (lineItems : list Item) : list Item :=
  lineItems ++ [blankItem].

(** [prev.filter((_, i) => i !== index)], counting from [i]. *)
Fixpoint removeAt (i index : nat) (items : list Item) : list Item :=
  match items with
  | [] => []
  | item :: rest =>
      if (i =? index)%nat then removeAt (S i) index rest
      else item :: removeAt (S i) index rest
  end.

(** The length is read from the list of the current render and the filter
    runs on the list being updated: one list, as no update is pending
    when the button is clicked. *)
Definition removeLineItem (index : nat) (lineItems : list Item) : list Item :=
  if (1 <? List.length lineItems)%nat then removeAt 0 index lineItems
  else lineItems.

(** [prev.map((item, i) => i === index ? {...item, [field]: value} : item)],
    counting from [i]. *)
Fixpoint updateAt (i index : nat) (field : string) (value : JsVal) (items : list Item)
  : list Item :=
  match items with
  | [] => []
  | item :: rest =>
      (if (i =? index)%nat then setProp item field value else item)
        :: updateAt (S i) index field value rest
  end.

Definition updateLineItem (index : nat) (field : string) (value : JsVal)
           (lineItems : list Item) : list Item :=
  updateAt 0 index field value lineItems.

(** The actions of the form on the line items. *)
Inductive Action : Type :=
| Add
| Remove (index : nat)
| Update (index : nat) (field : string) (value : JsVal).

Definition act (lineItems : list Item) (a : Action) : list Item :=
  match a with
  | Add => addLineItem lineItems
  | Remove index => removeLineItem index lineItems
  | Update index field value => updateLineItem index field value lineItems
  end.

End Invoice.

(* ===================================================================== *)
(** ** Vocabulary of the further properties *)
(* ===================================================================== *)

Definition chatUrl : string := Api.BASE_URL ++ "/api/chat".
Definition voiceUrl : string := Api.BASE_URL ++ "/api/chat/voice".
Definition invoiceUrl : string := Api.BASE_URL ++ "/api/invoice/generate".
Definition pdfUrl (id : string) : string :=
  Api.BASE_URL ++ "/api/invoice/" ++ id ++ "/pdf".

(** The optional field [k] of a request body: there only when a value
    was given. *)
Definition optionalField (k : string) (x : JsVal) : list (string * JsVal) :=
  if ApiRest.given x then [(k, x)] else [].

Definition isNonEmptyArray (v : JsVal) : bool :=
  match v with JArr (_ :: _) => true | _ => false end.

Definition isErrorOnly (v : JsVal) : Prop :=
  exists e, v = JObj [("error", e)] /\ truthy e = true.

(** Sample responses and networks for the further properties. *)
Definition audioReply : ApiRest.Response :=
  {| ApiRest.base := {| Api.status := 200;
                        Api.json := Throw (mkError "SyntaxError" "Unexpected token") |};
     ApiRest.contentType := Some "audio/mpeg";
     ApiRest.blob := Normal {| ApiRest.blobType := "audio/mpeg";
                              ApiRest.blobData := "ID3" |} |}.

Definition jsonReply (st : Z) (v : JsVal) : ApiRest.Response :=
  {| ApiRest.base := {| Api.status := st; Api.json := Normal v |};
     ApiRest.contentType := Some "application/json";
     ApiRest.blob := Throw (mkError "TypeError" "body stream already read") |}.

Definition replying (r : ApiRest.Response) : ApiRest.Network :=
  fun _ _ _ => Normal r.

Definition serving (r : ApiRest.Response) : ApiRest.GetNetwork :=
  fun _ _ => Normal r.

Definition voiceFailedReply : JsVal :=
  JObj [("response", JStr "Register within 21 days.");
        ("voice_error", JStr "quota exceeded");
        ("model", JStr "llama")].

Definition oneItem : JsVal :=
  JArr [JObj [("description", JStr "Audit"); ("quantity", num 1);
              ("unit_price", num 1500)]].

(** [a || b || ... || d]: the first truthy candidate, else the default. *)
Fixpoint firstTruthy (candidates : list JsVal) (default : JsVal) : JsVal :=
  match candidates with
  | [] => default
  | c :: rest => if truthy c then c else firstTruthy rest default
  end.

Definition sampleSmartSQL (answer : Completion JsVal) : Worker.Env :=
  {| Worker.SSQL := Some {| Worker.run := fun _ _ => answer |};
     Worker.DB := None |}.

Definition brokenD1 : Worker.Env :=
  {| Worker.SSQL := None;
     Worker.DB := Some {| Worker.prepare := fun _ =>
                            Normal {| Worker.all := fun _ =>
                                        Throw (mkError "Error" "no such table: invoices") |} |} |}.

Definition httpRequest (m : string) (path : string) (q : string)
  : WorkerRouter.Request :=
  {| WorkerRouter.method := m;
     WorkerRouter.pathname := Normal path;
     WorkerRouter.inner := asking q |}.

(** The three routes of the worker. *)
Definition knownRoute (m path : string) : bool :=
  (String.eqb path "/" && String.eqb m "GET")
  || (String.eqb path "/health" && String.eqb m "GET")
  || (String.eqb path "/query" && String.eqb m "POST").

Definition failingBinding (err : JsError) : Server.SmartSQL :=
  {| Server.smartsql_execute := fun _ _ => Throw err |}.

Definition nullTotal : JsVal :=
  JObj [("sql", JStr "SELECT SUM(total) AS total FROM invoices");
        ("results", JArr [JObj [("total", JNull)]])].

Definition chatState (input : string) (voice : bool) : Chat.State :=
  Chat.mkState [] input false voice JNull [] [].

Ltac split_pairs :=
  repeat match goal with
         | H : (_, _) = (_, _) |- _ => injection H as ? ?; subst
         end.

(** Case analysis on an innermost scrutinee of the goal. *)
Ltac destruct_match :=
  match goal with
  | |- context [match ?x with _ => _ end] =>
      lazymatch x with
      | context [match _ with _ => _ end] => fail
      | _ => destruct x eqn:?
      end
  end.

Ltac unfold_worker :=
  unfold Worker.handleQuery, Worker.executeQuery, tryCatch, bind, await, ret,
         Worker.callRun, Worker.callAll.

(* ===================================================================== *)
(** ** The model on the examples of the tests and of the specification *)
(* ===================================================================== *)

Example trim_blank :
  trim ("   " ++ newline ++ String (ascii_of_nat 9) "  ") = EmptyString.
Proof. reflexivity. Qed.

Example trim_both_ends : trim "  Show me all invoices  " = "Show me all invoices".
Proof. reflexivity. Qed.

Example isRawSQL_lower_case : Worker.isRawSQL "select * from invoices" = true.
Proof. reflexivity. Qed.

Example isRawSQL_prefix_only : Worker.isRawSQL "dropdown values" = true.
Proof. reflexivity. Qed.

Example isRawSQL_sentence : Worker.isRawSQL "Show me all invoices" = false.
Proof. reflexivity. Qed.

Example firstKey_index_keys_first :
  Dashboard.firstKey [("b", num 1); ("10", num 2); ("2", num 3)] = Some "2".
Proof. reflexivity. Qed.

Example extractValue_first_cell :
  Dashboard.extractValue
    (JObj [("sql", JStr "SELECT SUM(total) FROM invoices");
           ("results", JArr [JObj [("total", num 4200)]])]) = Normal (num 4200).
Proof. reflexivity. Qed.

(** api.test.js, 'should handle network error'. *)
Example runSmartSQL_dns_failure :
  fst (Api.runSmartSQL (fun _ _ _ => Throw (mkError "Error" "DNS resolution failed"))
                       (JStr "Show all clients") []) =
  Normal (JObj [("error", JStr "Network error: DNS resolution failed")]).
Proof. reflexivity. Qed.

(** api.test.js, 'should propagate backend error'. *)
Example runSmartSQL_backend_error :
  fst (Api.runSmartSQL
         (answering 400 (Normal (JObj [("error", JStr "Unable to parse query")])))
         (JStr "gibberish query") []) =
  Normal (JObj [("error", JStr "Unable to parse query")]).
Proof. reflexivity. Qed.

(** api.test.js, 'should return fallback error when backend returns no
    error field'. *)
Example runSmartSQL_fallback_error :
  fst (Api.runSmartSQL (answering 500 (Normal (JObj []))) (JStr "Some query") []) =
  Normal (JObj [("error", JStr "Request failed")]).
Proof. reflexivity. Qed.

(** The dashboard when the backend cannot be reached: three requests,
    three demo metrics, no error. *)
Example loadInitialMetrics_unreachable :
  exists st',
    Dashboard.loadInitialMetrics unreachable (initialState EmptyString) =
      (Normal tt, st') /\
    Dashboard.metrics st' = Dashboard.DEMO_METRICS /\
    Dashboard.metricsError st' =
      [("revenue", JNull); ("outstanding", JNull); ("vatDue", JNull)] /\
    Dashboard.isLoadingMetrics st' =
      [("revenue", JBool false); ("outstanding", JBool false); ("vatDue", JBool false)] /\
    List.length (Dashboard.requests st') = 3%nat.
Proof. eexists; split; [vm_compute; reflexivity|]; repeat split. Qed.

(** The worker on a SmartSQL binding that answers with [rows] only. *)
Example handleQuery_rows_fallback :
  fst (Worker.handleQuery
         (asking " count invoices ")
         {| Worker.SSQL := Some {| Worker.run := fun _ _ =>
                                     Normal (JObj [("rows", JArr [JObj [("n", num 42)]])]) |};
            Worker.DB := None |}
         sampleClock []) =
  Normal (Worker.respond
            (JObj [("success", JBool true);
                   ("sql", JStr "count invoices");
                   ("results", JArr [JObj [("n", num 42)]]);
                   ("metadata",
                    JObj [("query", JStr "count invoices");
                          ("executionTimeMs", num 125);
                          ("timestamp", JStr "2024-01-20T12:34:56.789Z")])])
            200).
Proof. reflexivity. Qed.

(* ===================================================================== *)
(** ** Strings *)
(* ===================================================================== *)


Lemma trimStart_noLeadingSpace (s : string) : noLeadingSpace (trimStart s).
Proof.
  induction s as [|c r IH]; simpl; [exact I|].
  destruct (isWhiteSpace c) eqn:E; [exact IH | exact E].
Qed.

Lemma trimStart_fixed (s : string) : noLeadingSpace s -> trimStart s = s.
Proof.
  destruct s as [|c r]; simpl; [reflexivity|].
  intros ->; reflexivity.
Qed.

Lemma trimEnd_noLeadingSpace (s : string) :
  noLeadingSpace s -> noLeadingSpace (trimEnd s).
Proof.
  destruct s as [|c r]; simpl; [trivial|].
  intros H; rewrite H; simpl; exact H.
Qed.

Lemma trimEnd_idempotent (s : string) : trimEnd (trimEnd s) = trimEnd s.
Proof.
  induction s as [|c r IH]; simpl; [reflexivity|].
  destruct (isWhiteSpace c && isEmpty (trimEnd r)) eqn:E; simpl; [reflexivity|].
  rewrite IH, E; reflexivity.
Qed.

Lemma trim_idempotent (s : string) : trim (trim s) = trim s.
Proof.
  unfold trim.
  rewrite (trimStart_fixed (trimEnd (trimStart s))).
  - apply trimEnd_idempotent.
  - apply trimEnd_noLeadingSpace, trimStart_noLeadingSpace.
Qed.

Lemma isWhiteSpace_upperChar (c : ascii) :
  isWhiteSpace (upperChar c) = isWhiteSpace c.
Proof. destruct c as [[] [] [] [] [] [] [] []]; reflexivity. Qed.

Lemma isEmpty_toUpperCase (s : string) : isEmpty (toUpperCase s) = isEmpty s.
Proof. destruct s; reflexivity. Qed.

Lemma trimStart_toUpperCase (s : string) :
  trimStart (toUpperCase s) = toUpperCase (trimStart s).
Proof.
  induction s as [|c r IH]; simpl; [reflexivity|].
  rewrite isWhiteSpace_upperChar.
  destruct (isWhiteSpace c); [exact IH | reflexivity].
Qed.

Lemma trimEnd_toUpperCase (s : string) :
  trimEnd (toUpperCase s) = toUpperCase (trimEnd s).
Proof.
  induction s as [|c r IH]; simpl; [reflexivity|].
  rewrite isWhiteSpace_upperChar, IH, isEmpty_toUpperCase.
  destruct (isWhiteSpace c && isEmpty (trimEnd r)); reflexivity.
Qed.

Lemma trim_toUpperCase (s : string) : trim (toUpperCase s) = toUpperCase (trim s).
Proof. unfold trim; rewrite trimStart_toUpperCase; apply trimEnd_toUpperCase. Qed.

(** The second [trim] in [trimmedQuery.toUpperCase().trim()] changes
    nothing, and the keyword test is a prefix test that ignores case. *)
Lemma isRawSQL_trimmed (q : string) :
  Worker.isRawSQL (trim q) = startsWithSqlKeyword (trim q).
Proof.
  unfold Worker.isRawSQL, startsWithSqlKeyword, startsWithIgnoreCase.
  rewrite trim_toUpperCase, trim_idempotent.
  reflexivity.
Qed.

Lemma trim_nonempty (q : string) : isEmpty (trim q) = false -> isEmpty q = false.
Proof. destruct q; [discriminate | reflexivity]. Qed.

Lemma isEmpty_false (s : string) : s <> EmptyString -> isEmpty s = false.
Proof. destruct s; [congruence | reflexivity]. Qed.

(* ===================================================================== *)
(** ** api.js: what [runSmartSQL] returns and sends *)
(* ===================================================================== *)

Section ApiFacts.

Variable net : Api.Network.

(** Every path of [handleRequest], spelled out. *)
Lemma handleRequest_cases (url : string) (options : Api.FetchOptions) (log : Api.Log) :
  Api.handleRequest net url options log =
  (match net log url options with
   | Throw err => Normal (networkError err)
   | Normal response =>
       match Api.json response with
       | Throw err => Normal (networkError err)
       | Normal data =>
           if Api.ok response then Normal data
           else match getProp data "error" with
                | Throw err => Normal (networkError err)
                | Normal e =>
                    Normal (errorResult (if truthy e then e else JStr "Request failed"))
                end
       end
   end, log ++ [(url, options)]).
Proof.
  unfold Api.handleRequest, tryCatch, bind, Api.fetch, await, ret.
  destruct (net log url options) as [response|err]; [|reflexivity].
  destruct (Api.ok response); simpl.
  - destruct (Api.json response); reflexivity.
  - destruct (Api.json response) as [data|err]; [|reflexivity].
    destruct (getProp data "error"); reflexivity.
Qed.

Lemma runSmartSQL_valid (query : JsVal) (log : Api.Log) :
  Api.isValidStringInput query = true ->
  Api.runSmartSQL net query log =
  Api.handleRequest net smartsqlUrl (smartsqlOptions query) log.
Proof. unfold Api.runSmartSQL; intros ->; reflexivity. Qed.

Lemma runSmartSQL_invalid (query : JsVal) (log : Api.Log) :
  Api.isValidStringInput query = false ->
  Api.runSmartSQL net query log =
  (Normal (errorResult (JStr "Query cannot be empty")), log).
Proof. unfold Api.runSmartSQL; intros ->; reflexivity. Qed.

Lemma truthy_or_default (e : JsVal) :
  truthy (if truthy e then e else JStr "Request failed") = true.
Proof. destruct (truthy e) eqn:E; [exact E | reflexivity]. Qed.

Lemma truthy_not_nullish (v : JsVal) : truthy v = true -> isNullish v = false.
Proof. destruct v; simpl; congruence. Qed.

Lemma exactlyOneGroup_errorResult (e : JsVal) :
  truthy e = true -> exactlyOneGroup (errorResult e) = true.
Proof.
  intros H; unfold exactlyOneGroup, successGroup, errorGroup, populated; simpl.
  rewrite (truthy_not_nullish _ H); reflexivity.
Qed.

End ApiFacts.

(** The two kinds of result of [runSmartSQL]. *)
Lemma runSmartSQL_result_cases (net : Api.Network) (query : JsVal) (log : Api.Log) :
  exists v log',
    Api.runSmartSQL net query log = (Normal v, log') /\
    match parsedSuccessBody net query log with
    | Some data => v = data
    | None => exists e, v = errorResult e /\ truthy e = true
    end.
Proof.
  unfold parsedSuccessBody.
  destruct (Api.isValidStringInput query) eqn:V.
  - rewrite (runSmartSQL_valid net _ _ V), handleRequest_cases.
    destruct (net log smartsqlUrl (smartsqlOptions query)) as [response|err].
    + destruct (Api.json response) as [data|err];
        destruct (Api.ok response);
        try destruct (getProp data "error") as [e|err];
        eexists; eexists; (split; [reflexivity|]);
        try reflexivity;
        eexists; (split; [reflexivity|]);
        first [reflexivity | apply truthy_or_default].
    + eexists; eexists; split; [reflexivity|].
      eexists; split; reflexivity.
  - rewrite (runSmartSQL_invalid net _ _ V).
    eexists; eexists; split; [reflexivity|].
    eexists; split; reflexivity.
Qed.













(** C7 (as amended).  Every request that [runSmartSQL] sends carries
    exactly one header, [Content-Type: application/json]; the module has
    no API-key setting and no request ever has an [Authorization] header.
    At most one request is sent per call. *)
Theorem runSmartSQL_request_headers (net : Api.Network) (query : JsVal) (log : Api.Log) :
  exists sent,
    snd (Api.runSmartSQL net query log) = log ++ sent /\
    (sent = [] \/
     exists options,
       sent = [(smartsqlUrl, options)] /\
       Api.method options = "POST" /\
       Api.headers options = [("Content-Type", "application/json")] /\
       forall name value,
         In (name, value) (Api.headers options) -> name <> "Authorization").
Proof.
  destruct (Api.isValidStringInput query) eqn:V.
  - rewrite (runSmartSQL_valid net _ _ V), handleRequest_cases.
    exists [(smartsqlUrl, smartsqlOptions query)]; split; [reflexivity|].
    right; exists (smartsqlOptions query).
    repeat split.
    intros name value [H | []]; injection H as <- _; discriminate.
  - rewrite (runSmartSQL_invalid net _ _ V).
    exists []; split; [symmetry; apply app_nil_r | left; reflexivity].
Qed.

(** C7, counterexample.  Whatever key the deployment may hold (say
    [sk-live-123]), the request sent for a query has no [Authorization]
    header, so not the header [Bearer sk-live-123] either. *)
Lemma runSmartSQL_sends_no_bearer :
  exists options,
    snd (Api.runSmartSQL (answering 200 (Normal invoicesBody))
                         (JStr "Show me all invoices") []) =
      [(smartsqlUrl, options)] /\
    ~ In ("Authorization", "Bearer sk-live-123") (Api.headers options) /\
    List.length (filter (fun h => String.eqb (fst h) "Authorization")
                        (Api.headers options)) = 0%nat.
Proof.
  eexists; split; [vm_compute; reflexivity|].
  split; [|reflexivity].
  intros [H | []]; discriminate.
Qed.

(* ===================================================================== *)
(** ** The worker: which provider a request reaches *)
(* ===================================================================== *)

Lemma app_one_not_self {A} (l : list A) (x : A) : l ++ [x] <> l.
Proof.
  intros H; apply (f_equal (@List.length A)) in H.
  rewrite length_app in H; simpl in H; lia.
Qed.

(** A request with a non-empty query reaches the inner [try]. *)
Lemma handleQuery_valid (request : Worker.Request) (env : Worker.Env)
      (clock : Worker.Clock) (log : Worker.Log) (body : JsVal) (q : string) :
  Worker.json request = Normal body ->
  getProp body "query" = Normal (JStr q) ->
  isEmpty (trim q) = false ->
  Worker.handleQuery request env clock log =
  match Worker.executeQuery env clock (trim q) log with
  | (Normal r, log') => (Normal r, log')
  | (Throw e, log') => (Normal (queryFailed e), log')
  end.
Proof.
  intros J G E.
  unfold Worker.handleQuery, tryCatch, bind, await, ret.
  rewrite J, G; simpl.
  rewrite (trim_nonempty _ E); simpl.
  rewrite E.
  destruct (Worker.executeQuery env clock (trim q) log) as [[r|e] log']; reflexivity.
Qed.

(** The fallback path of the inner [try], when there is no SmartSQL
    binding. *)
Lemma execute_fallback (env : Worker.Env) (clock : Worker.Clock)
      (t : string) (log : Worker.Log) :
  Worker.SSQL env = None ->
  (Worker.isRawSQL t = false ->
   Worker.executeQuery env clock t log = (Normal Worker.notConfigured, log)) /\
  (snd (Worker.executeQuery env clock t log) = log \/
   (Worker.isRawSQL t = true /\
    snd (Worker.executeQuery env clock t log) = log ++ [Worker.CallD1 t])).
Proof.
  intros S; unfold Worker.executeQuery, bind, await, ret, Worker.callAll; rewrite S.
  destruct (Worker.DB env) as [db|]; [|split; [reflexivity | left; reflexivity]].
  destruct (Worker.isRawSQL t); [|split; [reflexivity | left; reflexivity]].
  split; [discriminate|].
  destruct (Worker.prepare db t) as [stmt|e]; [|left; reflexivity].
  right; split; [reflexivity|].
  destruct (Worker.all stmt log) as [qr|e]; [|reflexivity].
  destruct (getProp qr "results"); reflexivity.
Qed.

(** Every provider call that one request makes goes to the provider
    selected by the first-match policy on [env]. *)
Lemma handleQuery_calls (request : Worker.Request) (env : Worker.Env)
      (clock : Worker.Clock) (log : Worker.Log) :
  exists r calls,
    Worker.handleQuery request env clock log = (Normal r, log ++ calls) /\
    (List.length calls <= 1)%nat /\
    Forall (fun c => providerOf c = configuredSelection env) calls.
Proof.
  unfold configuredSelection; unfold_worker.
  repeat (destruct_match; simpl);
    repeat match goal with
           | H : (_, _) = (_, _) |- _ => injection H as ? ?; subst
           end;
    try discriminate;
    first [ eexists; exists []; rewrite app_nil_r;
            split; [reflexivity|]; split; [simpl; lia | constructor]
          | eexists; eexists; split; [reflexivity|];
            split; [simpl; lia | repeat constructor] ].
Qed.

(** With the SmartSQL binding answering [{sql: S, results: R}], both
    truthy, the worker answers 200 with the success shape and the same
    [S] and [R]. *)
Lemma handleQuery_smartsql_success (request : Worker.Request) (env : Worker.Env)
      (clock : Worker.Clock) (log : Worker.Log) (body : JsVal) (q : string)
      (ssql : Worker.SmartSQL) (result S R : JsVal) :
  Worker.json request = Normal body ->
  getProp body "query" = Normal (JStr q) ->
  trim q <> EmptyString ->
  Worker.SSQL env = Some ssql ->
  Worker.run ssql log (trim q) = Normal result ->
  lookupProp result "sql" = Some S -> truthy S = true ->
  lookupProp result "results" = Some R -> truthy R = true ->
  Worker.handleQuery request env clock log =
  (Normal (Worker.respond
             (JObj [("success", JBool true);
                    ("sql", S);
                    ("results", R);
                    ("metadata", Worker.metadata (trim q) clock)])
             200),
   log ++ [Worker.CallSmartSQL (trim q)]).
Proof.
  intros J G E B Run HS TS HR TR.
  rewrite (handleQuery_valid request env clock log body q J G (isEmpty_false _ E)).
  unfold Worker.executeQuery, bind, await, ret, Worker.callRun.
  rewrite B, Run.
  destruct result; try discriminate; simpl in *.
  rewrite HS, HR; simpl.
  rewrite TR; simpl.
  rewrite TS, TR; reflexivity.
Qed.

(** The body that [handleQuery] serialises has exactly one of the two
    groups populated. *)
Lemma handleQuery_groups (request : Worker.Request) (env : Worker.Env)
      (clock : Worker.Clock) (log : Worker.Log) :
  exists r v,
    fst (Worker.handleQuery request env clock log) = Normal r /\
    Worker.body r = JSON_stringify v /\
    exactlyOneGroup v = true.
Proof.
  unfold_worker.
  repeat (destruct_match; simpl);
    repeat match goal with
           | H : (_, _) = (_, _) |- _ => injection H as ? ?; subst
           end;
    try discriminate;
    eexists; eexists; (split; [reflexivity|]); (split; [reflexivity|]);
    unfold exactlyOneGroup, successGroup, errorGroup, populated; simpl;
    repeat match goal with
           | H : truthy ?x = true |- context [isNullish ?x] =>
               rewrite (truthy_not_nullish x H)
           end;
    reflexivity.
Qed.

(** The provider calls of a request with a non-empty query. *)
Lemma handleQuery_valid_calls (request : Worker.Request) (env : Worker.Env)
      (clock : Worker.Clock) (log : Worker.Log) (body : JsVal) (q : string) :
  Worker.json request = Normal body ->
  getProp body "query" = Normal (JStr q) ->
  trim q <> EmptyString ->
  snd (Worker.handleQuery request env clock log) =
  log ++ expectedCalls env (trim q).
Proof.
  intros J G E.
  rewrite (handleQuery_valid request env clock log body q J G (isEmpty_false _ E)).
  unfold expectedCalls; rewrite <- isRawSQL_trimmed.
  unfold Worker.executeQuery, bind, await, ret, Worker.callRun, Worker.callAll.
  repeat (destruct_match; simpl);
    repeat match goal with
           | H : (_, _) = (_, _) |- _ => injection H as ? ?; subst
           end;
    try discriminate; try reflexivity; try (symmetry; apply app_nil_r).
Qed.

Lemma serve_calls (env : Worker.Env) (reqs : list (Worker.Request * Worker.Clock))
      (log : Worker.Log) :
  exists responses calls,
    Worker.serve env reqs log = (Normal responses, log ++ calls) /\
    List.length responses = List.length reqs /\
    (List.length calls <= List.length reqs)%nat /\
    Forall (fun c => providerOf c = configuredSelection env) calls.
Proof.
  revert log; induction reqs as [|[request clock] rest IH]; intros log.
  - exists [], []; rewrite app_nil_r; repeat split; constructor.
  - destruct (handleQuery_calls request env clock log) as (r & c1 & H1 & L1 & F1).
    destruct (IH (log ++ c1)) as (rs & c2 & H2 & N2 & L2 & F2).
    exists (r :: rs), (c1 ++ c2).
    simpl; unfold bind at 1; rewrite H1.
    unfold bind at 1; rewrite H2; unfold ret.
    rewrite app_assoc.
    repeat split.
    + simpl; congruence.
    + rewrite length_app; lia.
    + apply Forall_app; split; assumption.
Qed.








(* ===================================================================== *)
(** ** The dashboard: demo data in place of errors *)
(* ===================================================================== *)

Lemma index_setProp (props : list (string * JsVal)) (k : string) (v : JsVal) :
  Dashboard.index (setProp props k v) k = v.
Proof.
  unfold Dashboard.index.
  induction props as [|[k' v'] rest IH]; simpl.
  - rewrite String.eqb_refl; reflexivity.
  - destruct (String.eqb k k') eqn:E; simpl; rewrite E; [reflexivity | exact IH].
Qed.

Lemma includes_empty_400 : includes EmptyString "400" = false.
Proof. reflexivity. Qed.

Lemma includes_empty_SmartSQL : includes EmptyString "SmartSQL" = false.
Proof. reflexivity. Qed.

Lemma getProp_lookupProp (r : JsVal) (k : string) (x : JsVal) :
  lookupProp r k = Some x -> getProp r k = Normal x.
Proof.
  destruct r; simpl; try discriminate.
  intros ->; reflexivity.
Qed.

Lemma extractValue_no_results (r : JsVal) :
  lookupProp r "error" <> None ->
  lookupProp r "results" = None ->
  Dashboard.extractValue r = Normal JNull.
Proof.
  destruct r; simpl; try congruence.
  intros _ H; unfold Dashboard.extractValue; simpl; rewrite H; reflexivity.
Qed.

Section DashboardFacts.

Variable net : Api.Network.

Lemma loadMetric_error (metricKey queryText : string) (st : Dashboard.State)
      (r e : JsVal) :
  fst (Api.runSmartSQL net (JStr queryText) (Dashboard.requests st)) = Normal r ->
  lookupProp r "error" = Some e ->
  truthy e = true \/ lookupProp r "results" = None ->
  exists st',
    Dashboard.loadMetric net metricKey queryText st = (Normal tt, st') /\
    Dashboard.index (Dashboard.metrics st') metricKey =
      Dashboard.index Dashboard.DEMO_METRICS metricKey /\
    Dashboard.index (Dashboard.metricsError st') metricKey = JNull /\
    Dashboard.index (Dashboard.isLoadingMetrics st') metricKey = JBool false.
Proof.
  intros R L H.
  unfold Dashboard.loadMetric, tryFinally, tryCatch, bind, await, ret,
    Dashboard.setIsLoadingMetrics, Dashboard.setMetricsError,
    Dashboard.setMetrics, Dashboard.callApi, modify; simpl.
  destruct (Api.runSmartSQL net (JStr queryText) (Dashboard.requests st))
    as [c log'] eqn:Q.
  simpl in R; subst c.
  rewrite (getProp_lookupProp _ _ _ L).
  destruct (truthy e) eqn:T.
  - eexists; split; [reflexivity|]; simpl.
    repeat split; apply index_setProp.
  - destruct H as [H | H]; [discriminate|].
    rewrite (extractValue_no_results r); [|congruence | exact H].
    eexists; split; [reflexivity|]; simpl.
    repeat split; apply index_setProp.
Qed.

Lemma handleQuerySubmit_demo (st : Dashboard.State) (r : JsVal) (msg : string) :
  trim (Dashboard.query st) <> EmptyString ->
  Dashboard.isQuerying st = false ->
  fst (Api.runSmartSQL net (JStr (trim (Dashboard.query st)))
                       (Dashboard.requests st)) = Normal r ->
  lookupProp r "error" = Some (JStr msg) ->
  includes msg "400" = true \/ includes msg "SmartSQL" = true ->
  exists st',
    Dashboard.handleQuerySubmit net st = (Normal tt, st') /\
    Dashboard.queryResults st' = demoQueryResults (trim (Dashboard.query st)) /\
    Dashboard.error st' = JNull /\
    Dashboard.isQuerying st' = false.
Proof.
  intros E B R L H.
  assert (T : truthy (JStr msg) = true).
  { destruct msg; [|reflexivity].
    rewrite includes_empty_400, includes_empty_SmartSQL in H.
    destruct H; discriminate. }
  unfold Dashboard.handleQuerySubmit, bind at 1, get.
  rewrite (isEmpty_false _ E), B.
  unfold tryFinally, tryCatch, bind, await, ret,
    Dashboard.setIsQuerying, Dashboard.setError, Dashboard.setQueryResults,
    Dashboard.callApi, modify; simpl.
  destruct (Api.runSmartSQL net (JStr (trim (Dashboard.query st)))
                            (Dashboard.requests st)) as [c log'] eqn:Q.
  simpl in R; subst c.
  rewrite (getProp_lookupProp _ _ _ L), T.
  unfold Dashboard.includesMethod.
  destruct (includes msg "400") eqn:I4.
  - eexists; split; [reflexivity|]; simpl; repeat split.
  - destruct H as [H | H]; [discriminate|]; rewrite H.
    eexists; split; [reflexivity|]; simpl; repeat split.
Qed.

End DashboardFacts.




(* ===================================================================== *)
(** ** api.js: the other requests *)
(* ===================================================================== *)

Lemma handleRequest_returns (net : Api.Network) (url : string)
      (options : Api.FetchOptions) (log : Api.Log) :
  exists v,
    Api.handleRequest net url options log = (Normal v, log ++ [(url, options)]).
Proof.
  rewrite handleRequest_cases.
  repeat (destruct_match; simpl); eexists; reflexivity.
Qed.

(** Every path of [sendMessageWithVoice] for a valid message. *)
Lemma sendMessageWithVoice_cases (net : ApiRest.Network)
      (message context voice_id : JsVal) (log : Api.Log) :
  Api.isValidStringInput message = true ->
  let options :=
    Api.createPostOptions
      (JObj ([("message", message); ("enable_voice", JBool true)]
               ++ optionalField "context" context
               ++ optionalField "voice_id" voice_id)) in
  ApiRest.sendMessageWithVoice net message context voice_id log =
  (match net log voiceUrl options with
   | Throw err => Normal (ApiRest.Data (networkError err))
   | Normal response =>
       if negb (Api.ok (ApiRest.base response)) then
         match Api.json (ApiRest.base response) with
         | Throw err => Normal (ApiRest.Data (networkError err))
         | Normal data =>
             match getProp data "error" with
             | Throw err => Normal (ApiRest.Data (networkError err))
             | Normal e =>
                 Normal (ApiRest.Data
                           (errorResult (if truthy e then e else JStr "Request failed")))
             end
         end
       else if ApiRest.isAudio (ApiRest.contentType response) then
         match ApiRest.blob response with
         | Throw err => Normal (ApiRest.Data (networkError err))
         | Normal b => Normal (ApiRest.Binary b)
         end
       else
         match Api.json (ApiRest.base response) with
         | Throw err => Normal (ApiRest.Data (networkError err))
         | Normal data =>
             match getProp data "voice_error" with
             | Throw err => Normal (ApiRest.Data (networkError err))
             | Normal voice_error =>
                 if truthy voice_error then
                   match getProp data "response" with
                   | Throw err => Normal (ApiRest.Data (networkError err))
                   | Normal text =>
                       Normal (ApiRest.Data (JObj [("response", text);
                                                   ("voice_error", voice_error)]))
                   end
                 else Normal (ApiRest.Data data)
             end
         end
   end, log ++ [(voiceUrl, options)]).
Proof.
  intros V options; subst options.
  unfold ApiRest.sendMessageWithVoice; rewrite V.
  change (negb true) with false; cbv iota.
  assert (B : ApiRest.withOptional
                (ApiRest.withOptional
                   [("message", message); ("enable_voice", JBool true)]
                   "context" context) "voice_id" voice_id =
              [("message", message); ("enable_voice", JBool true)]
                ++ optionalField "context" context
                ++ optionalField "voice_id" voice_id).
  { unfold ApiRest.withOptional, optionalField.
    destruct (ApiRest.given context), (ApiRest.given voice_id); reflexivity. }
  rewrite B.
  unfold tryCatch, bind, await, ret, ApiRest.fetch; fold voiceUrl.
  repeat (destruct_match; simpl); reflexivity.
Qed.

Lemma withOptional_fresh (body : list (string * JsVal)) (k : string) (x : JsVal) :
  assoc k body = None ->
  ApiRest.withOptional body k x = body ++ optionalField k x.
Proof.
  unfold ApiRest.withOptional, optionalField.
  destruct (ApiRest.given x); [|intros _; symmetry; apply app_nil_r].
  induction body as [|[k' v'] rest IH]; simpl; [reflexivity|].
  destruct (String.eqb k k'); [discriminate|].
  intros H; rewrite (IH H); reflexivity.
Qed.



(** X3.  What [sendMessageWithVoice] returns for a valid message.  A
    [Blob] comes only from a 2xx response whose content type contains
    ['audio/'], and is the blob of that response (its body is not
    parsed).  Any other result is an object with only a truthy [error],
    or stems from the parsed body of a 2xx response that is not audio. *)
Theorem sendMessageWithVoice_result (net : ApiRest.Network)
        (message context voice_id : JsVal) (log : Api.Log) :
  Api.isValidStringInput message = true ->
  let options :=
    Api.createPostOptions
      (JObj ([("message", message); ("enable_voice", JBool true)]
               ++ optionalField "context" context
               ++ optionalField "voice_id" voice_id)) in
  exists r log',
    ApiRest.sendMessageWithVoice net message context voice_id log = (Normal r, log') /\
    (forall b, r = ApiRest.Binary b ->
       exists response,
         net log voiceUrl options = Normal response /\
         Api.ok (ApiRest.base response) = true /\
         ApiRest.isAudio (ApiRest.contentType response) = true /\
         ApiRest.blob response = Normal b) /\
    (forall v, r = ApiRest.Data v ->
       isErrorOnly v \/
       exists response data,
         net log voiceUrl options = Normal response /\
         Api.ok (ApiRest.base response) = true /\
         ApiRest.isAudio (ApiRest.contentType response) = false /\
         Api.json (ApiRest.base response) = Normal data /\
         (v = data \/
          exists text voice_error,
            v = JObj [("response", text); ("voice_error", voice_error)])).
Proof.
  intros V options.
  rewrite (sendMessageWithVoice_cases net message context voice_id log V).
  fold options.
  destruct (net log voiceUrl options) as [response|err] eqn:N;
    [destruct (Api.ok (ApiRest.base response)) eqn:O; simpl;
     [destruct (ApiRest.isAudio (ApiRest.contentType response)) eqn:A;
      [destruct (ApiRest.blob response) as [b|err] eqn:B
      |destruct (Api.json (ApiRest.base response)) as [data|err] eqn:J;
       [destruct (getProp data "voice_error") as [ve|err] eqn:G;
        [destruct (truthy ve) eqn:T;
         [destruct (getProp data "response") as [text|err] eqn:G2|]|]|]]
     |destruct (Api.json (ApiRest.base response)) as [data|err] eqn:J;
      [destruct (getProp data "error") as [e|err] eqn:G|]]|];
    eexists; eexists; (split; [reflexivity|]); split;
    intros x Hx; inversion Hx; subst;
    first
      [ solve [left; eexists; split;
               [reflexivity | first [apply truthy_or_default | reflexivity]]]
      | solve [eexists; repeat split; eauto]
      | solve [right; do 2 eexists; repeat split; eauto 6] ].
Qed.

Lemma sendMessageWithVoice_result_witness :
  exists r log',
    ApiRest.sendMessageWithVoice (replying audioReply)
      (JStr "How do I register for VAT?") JUndefined (JStr "rachel") [] =
      (Normal r, log') /\
    r = ApiRest.Binary {| ApiRest.blobType := "audio/mpeg"; ApiRest.blobData := "ID3" |}.
Proof.
  destruct (sendMessageWithVoice_result (replying audioReply)
              (JStr "How do I register for VAT?") JUndefined (JStr "rachel") []
              eq_refl) as (r & log' & H & _ & _).
  exists r, log'; split; [exact H|].
  vm_compute in H; injection H as <- _; reflexivity.
Defined.





Lemma truthy_or_text (e : JsVal) (c : ascii) (s : string) :
  truthy (if truthy e then e else JStr (String c s)) = true.
Proof. destruct (truthy e) eqn:E; [exact E | reflexivity]. Qed.

(** Every path of [downloadInvoicePdf] for a valid identifier. *)
Lemma downloadInvoicePdf_cases (net : ApiRest.GetNetwork) (id : string)
      (log : list string) :
  Api.isValidStringInput (JStr id) = true ->
  ApiRest.downloadInvoicePdf net (JStr id) log =
  (match net log (pdfUrl id) with
   | Throw err => Normal (ApiRest.Data (networkError err))
   | Normal response =>
       if Api.ok (ApiRest.base response) then
         match ApiRest.blob response with
         | Throw err => Normal (ApiRest.Data (networkError err))
         | Normal b => Normal (ApiRest.Binary b)
         end
       else
         match Api.json (ApiRest.base response) with
         | Throw err => Normal (ApiRest.Data (networkError err))
         | Normal data =>
             match getProp data "error" with
             | Throw err => Normal (ApiRest.Data (networkError err))
             | Normal e =>
                 Normal (ApiRest.Data
                           (errorResult
                              (if truthy e then e else JStr "Failed to download PDF")))
             end
         end
   end, log ++ [pdfUrl id]).
Proof.
  intros V; unfold ApiRest.downloadInvoicePdf; rewrite V.
  change (negb true) with false; cbv iota.
  unfold tryCatch, bind, await, ret, ApiRest.fetchGet; fold (pdfUrl id).
  repeat (destruct_match; simpl); try discriminate; reflexivity.
Qed.



(* ===================================================================== *)
(** ** The worker: answers of [handleQuery] and of the router *)
(* ===================================================================== *)

(** The answers of [handleQuery], by status. *)
Lemma handleQuery_answers (request : Worker.Request) (env : Worker.Env)
        (clock : Worker.Clock) (log : Worker.Log) :
  exists r v calls,
    Worker.handleQuery request env clock log = (Normal r, log ++ calls) /\
    Worker.body r = JSON_stringify v /\
    Worker.headers r = Worker.getCORSHeaders /\
    ((Worker.status r = 200%Z /\ lookupProp v "success" = Some (JBool true) /\
      List.length calls = 1%nat) \/
     (Worker.status r = 400%Z /\ lookupProp v "success" = Some (JBool false) /\
      calls = []) \/
     (Worker.status r = 500%Z /\ lookupProp v "success" = Some (JBool false) /\
      (List.length calls <= 1)%nat)).
Proof.
  unfold_worker.
  repeat (destruct_match; simpl); split_pairs; try discriminate;
    first [ eexists; eexists; exists []; rewrite app_nil_r; split; [reflexivity|]
          | eexists; eexists; eexists; split; [reflexivity|] ];
    (split; [reflexivity|]); (split; [reflexivity|]);
    first [ left; repeat split; reflexivity
          | right; left; repeat split; reflexivity
          | right; right; repeat split; simpl; lia ].
Qed.

(** X7.  [handleQuery] never throws, and its status tells how far the
    request went: 200 always has [success: true] and comes with exactly
    one provider call; 400 has [success: false] and comes with no
    provider call; 500 has [success: false] and at most one call.  Every
    answer carries the CORS headers. *)
Theorem handleQuery_status (request : Worker.Request) (env : Worker.Env)
        (clock : Worker.Clock) (log : Worker.Log) :
  exists r v calls,
    Worker.handleQuery request env clock log = (Normal r, log ++ calls) /\
    Worker.body r = JSON_stringify v /\
    Worker.headers r = Worker.getCORSHeaders /\
    ((Worker.status r = 200%Z /\ lookupProp v "success" = Some (JBool true) /\
      List.length calls = 1%nat) \/
     (Worker.status r = 400%Z /\ lookupProp v "success" = Some (JBool false) /\
      calls = []) \/
     (Worker.status r = 500%Z /\ lookupProp v "success" = Some (JBool false) /\
      (List.length calls <= 1)%nat)).
Proof. exact (handleQuery_answers request env clock log). Qed.







Lemma route_cases (request : WorkerRouter.Request) (clock : Worker.Clock)
      (log : Worker.Log) :
  exists routed,
    WorkerRouter.route request clock log = (Normal routed, log) /\
    match routed with
    | WorkerRouter.ToHandleQuery =>
        WorkerRouter.method request = "POST" /\
        WorkerRouter.pathname request = Normal "/query"
    | WorkerRouter.Immediate r =>
        WorkerRouter.headers r = Worker.getCORSHeaders /\
        (WorkerRouter.status r = 200%Z \/ WorkerRouter.status r = 404%Z \/
         WorkerRouter.status r = 500%Z)
    end.
Proof.
  unfold WorkerRouter.route, tryCatch, bind, await, ret.
  destruct (WorkerRouter.pathname request) as [path|err] eqn:P.
  - destruct (String.eqb path "/" && String.eqb (WorkerRouter.method request) "GET");
      [eexists; split; [reflexivity|]; split; [reflexivity | left; reflexivity]|].
    destruct (String.eqb path "/health"
              && String.eqb (WorkerRouter.method request) "GET");
      [eexists; split; [reflexivity|]; split; [reflexivity | left; reflexivity]|].
    destruct (String.eqb path "/query"
              && String.eqb (WorkerRouter.method request) "POST") eqn:Q.
    + eexists; split; [reflexivity|].
      apply andb_true_iff in Q; destruct Q as [Q1 Q2].
      apply String.eqb_eq in Q1; apply String.eqb_eq in Q2.
      subst path; split; [assumption | reflexivity].
    + eexists; split; [reflexivity|]; split; [reflexivity | right; left; reflexivity].
  - eexists; split; [reflexivity|]; split; [reflexivity | right; right; reflexivity].
Qed.

(** X11.  The worker answers every request: [fetch] never throws, every
    response carries the four CORS headers, and the status is one of
    200, 400, 404 and 500.  A provider is reached only by a POST to
    /query: for any other method or path the record of provider calls is
    left as it was. *)
Theorem fetch_always_answers (request : WorkerRouter.Request) (env : Worker.Env)
        (clock : Worker.Clock) (log : Worker.Log) :
  exists r calls,
    WorkerRouter.fetch request env clock log = (Normal r, log ++ calls) /\
    WorkerRouter.headers r = Worker.getCORSHeaders /\
    (WorkerRouter.status r = 200%Z \/ WorkerRouter.status r = 400%Z \/
     WorkerRouter.status r = 404%Z \/ WorkerRouter.status r = 500%Z) /\
    (calls <> [] ->
     WorkerRouter.method request = "POST" /\
     WorkerRouter.pathname request = Normal "/query").
Proof.
  unfold WorkerRouter.fetch.
  destruct (String.eqb (WorkerRouter.method request) "OPTIONS").
  - eexists; exists []; rewrite app_nil_r; unfold ret.
    repeat split; [left; reflexivity | congruence | congruence].
  - destruct (route_cases request clock log) as (routed & H & K).
    unfold bind at 1; rewrite H.
    destruct routed as [r|].
    + destruct K as [Hh Hs].
      exists r, []; rewrite app_nil_r; unfold ret.
      repeat split; try congruence.
      destruct Hs as [?|[?|?]]; auto.
    + destruct K as [Km Kp].
      destruct (handleQuery_answers (WorkerRouter.inner request) env clock log)
        as (r & v & calls & Hq & _ & Hh & Hs).
      unfold bind, ret; rewrite Hq.
      exists (WorkerRouter.ofWorker r), calls; simpl.
      repeat split; auto.
      destruct Hs as [(? & _)|[(? & _)|(? & _)]]; auto.
Qed.

(** X12.  Routing of the worker.  An OPTIONS request is answered 200
    with the CORS headers and no body before the address is looked at,
    whatever the path.  For the other methods, an address that cannot be
    parsed gives the generic 500 answer, and a pair of path and method
    outside the three routes (GET /, GET /health, POST /query) gives
    404 'Not Found' - a known path with another method included.  None
    of these reaches a provider. *)
Theorem fetch_routes (request : WorkerRouter.Request) (env : Worker.Env)
        (clock : Worker.Clock) (log : Worker.Log) :
  (WorkerRouter.method request = "OPTIONS" ->
   WorkerRouter.fetch request env clock log =
   (Normal {| WorkerRouter.status := 200;
              WorkerRouter.headers := Worker.getCORSHeaders;
              WorkerRouter.body := None |}, log)) /\
  (forall err,
      WorkerRouter.method request <> "OPTIONS" ->
      WorkerRouter.pathname request = Throw err ->
      WorkerRouter.fetch request env clock log =
      (Normal (WorkerRouter.respond
                 (JObj [("error", JStr "Internal Server Error");
                        ("message", JStr "An unexpected error occurred")])
                 500), log)) /\
  (forall path,
      WorkerRouter.method request <> "OPTIONS" ->
      WorkerRouter.pathname request = Normal path ->
      knownRoute (WorkerRouter.method request) path = false ->
      WorkerRouter.fetch request env clock log =
      (Normal (WorkerRouter.respond
                 (JObj [("error", JStr "Not Found");
                        ("message", JStr "Endpoint not found")])
                 404), log)).
Proof.
  unfold WorkerRouter.fetch, WorkerRouter.route, tryCatch, bind, await, ret.
  repeat split.
  - intros ->; reflexivity.
  - intros err M ->.
    apply String.eqb_neq in M; rewrite M; reflexivity.
  - intros path M -> K.
    apply String.eqb_neq in M; rewrite M.
    unfold knownRoute in K.
    apply orb_false_iff in K; destruct K as [K K3].
    apply orb_false_iff in K; destruct K as [K1 K2].
    rewrite K1, K2, K3; reflexivity.
Qed.

Lemma fetch_routes_witness :
  WorkerRouter.fetch (httpRequest "GET" "/query" "select 1") d1Only sampleClock [] =
  (Normal (WorkerRouter.respond
             (JObj [("error", JStr "Not Found");
                    ("message", JStr "Endpoint not found")])
             404), []).
Proof.
  refine (proj2 (proj2 (fetch_routes (httpRequest "GET" "/query" "select 1")
                                     d1Only sampleClock []))
                "/query" _ eq_refl eq_refl).
  vm_compute; discriminate.
Defined.

(* ===================================================================== *)
(** ** The Express server and the binding it loads *)
(* ===================================================================== *)

Lemma mockExecute_table (query : string) :
  exists columns rows,
    Server._mockExecute query =
      inl (Server.table columns rows (Z.of_nat (List.length rows))) /\
    rows <> [] /\
    Forall (fun cells => List.length cells = List.length columns) rows.
Proof.
  assert (H : exists columns rows n,
             Server._mockExecute query = inl (Server.table columns rows n) /\
             n = Z.of_nat (List.length rows) /\
             rows <> [] /\
             Forall (fun cells => List.length cells = List.length columns) rows).
  { unfold Server._mockExecute.
    repeat (destruct_match; simpl);
      eexists; eexists; eexists; (split; [reflexivity|]);
      (split; [reflexivity|]); (split; [discriminate|]); repeat constructor. }
  destruct H as (columns & rows & n & H & -> & N & F).
  exists columns, rows; auto.
Qed.


(** Every path of the handler of POST /query for a usable query. *)
Lemma postQuery_valid (smartsql : Server.SmartSQL) (body : JsVal)
      (clock : Worker.Clock) (log : Server.Log) (q : string) :
  getProp body "query" = Normal (JStr q) ->
  trim q <> EmptyString ->
  Server.postQuery smartsql body clock log =
  (match Server.smartsql_execute smartsql log (trim q) with
   | Normal results =>
       Normal {| Server.status := 200;
                 Server.body := JObj [("success", JBool true);
                                      ("data", results);
                                      ("metadata", Worker.metadata (trim q) clock)] |}
   | Throw error =>
       if String.eqb (err_name error) "ValidationError" then
         Normal {| Server.status := 400;
                   Server.body := JObj [("error", JStr "Validation Error");
                                        ("message", JStr (err_message error))] |}
       else if String.eqb (err_name error) "DatabaseError" then
         Normal {| Server.status := 500;
                   Server.body :=
                     JObj [("error", JStr "Database Error");
                           ("message",
                            JStr "Failed to execute query against database")] |}
       else
         Normal {| Server.status := 500;
                   Server.body :=
                     JObj [("error", JStr "Internal Server Error");
                           ("message",
                            JStr "An unexpected error occurred while processing your query")] |}
   end, log ++ [trim q]).
Proof.
  intros G E.
  unfold Server.postQuery, tryCatch, bind, await, ret, Server.callExecute.
  rewrite G; simpl.
  rewrite (trim_nonempty q (isEmpty_false _ E)); simpl.
  rewrite (isEmpty_false _ E).
  repeat (destruct_match; simpl); reflexivity.
Qed.

Lemma postQuery_unusable (smartsql : Server.SmartSQL) (body : JsVal)
      (clock : Worker.Clock) (log : Server.Log) :
  (forall q, lookupProp body "query" = Some (JStr q) -> trim q = EmptyString) ->
  exists r,
    Server.postQuery smartsql body clock log = (Normal r, log) /\
    (isNullish body = false ->
     Server.status r = 400%Z /\
     lookupProp (Server.body r) "error" = Some (JStr "Bad Request")).
Proof.
  intros H.
  unfold Server.postQuery, tryCatch, bind, await, ret.
  destruct body as [| |b|n|s|items|fields]; simpl;
    try (eexists; split; [reflexivity|]; intros; try discriminate;
         split; reflexivity).
  destruct (assoc "query" fields) as [query|] eqn:A; simpl;
    [|eexists; split; [reflexivity | intros; split; reflexivity]].
  destruct query as [| |b|n|q|items|fs]; simpl;
    try (eexists; split; [reflexivity | intros; split; reflexivity]);
    try (rewrite orb_true_r; eexists; split;
         [reflexivity | intros; split; reflexivity]).
  destruct q as [|c q]; simpl;
    [eexists; split; [reflexivity | intros; split; reflexivity]|].
  rewrite (H (String c q)) by (simpl; exact A).
  eexists; split; [reflexivity | intros; split; reflexivity].
Qed.





Lemma usable_query_cases (body : JsVal) :
  (exists q, lookupProp body "query" = Some (JStr q) /\ trim q <> EmptyString) \/
  (forall q, lookupProp body "query" = Some (JStr q) -> trim q = EmptyString).
Proof.
  destruct (lookupProp body "query") as [[| |b|n|q|items|fields]|];
    try (right; intros; discriminate).
  destruct (trim q) eqn:T.
  - right; intros q' H; injection H as <-; exact T.
  - left; exists q; split; [reflexivity|]; rewrite T; discriminate.
Qed.



(* ===================================================================== *)
(** ** The dashboard: what a load and a submit leave behind *)
(* ===================================================================== *)

Lemma index_setProp_other (props : list (string * JsVal)) (k k' : string) (v : JsVal) :
  k' <> k ->
  Dashboard.index (setProp props k v) k' = Dashboard.index props k'.
Proof.
  intros N; unfold Dashboard.index.
  assert (E : String.eqb k' k = false) by (apply String.eqb_neq; exact N).
  induction props as [|[k0 v0] rest IH]; simpl.
  - rewrite E; reflexivity.
  - destruct (String.eqb k k0) eqn:K; simpl.
    + apply String.eqb_eq in K; subst k0; rewrite E; reflexivity.
    + destruct (String.eqb k' k0); [reflexivity | exact IH].
Qed.

Lemma nullish_not_nullish (value demo : JsVal) :
  isNullish demo = false -> isNullish (Dashboard.nullish value demo) = false.
Proof. destruct value; simpl; auto. Qed.

Lemma runSmartSQL_returns (net : Api.Network) (query : JsVal) (log : Api.Log) :
  exists v sent,
    Api.runSmartSQL net query log = (Normal v, log ++ sent) /\
    sent = if Api.isValidStringInput query
           then [(smartsqlUrl, smartsqlOptions query)] else [].
Proof.
  destruct (Api.isValidStringInput query) eqn:V.
  - rewrite (runSmartSQL_valid net _ _ V).
    destruct (handleRequest_returns net smartsqlUrl (smartsqlOptions query) log)
      as (v & H).
    exists v; eexists; split; [exact H | reflexivity].
  - rewrite (runSmartSQL_invalid net _ _ V).
    eexists; exists []; rewrite app_nil_r; split; reflexivity.
Qed.

(** What a metric load leaves behind. *)
Lemma loadMetric_settles (net : Api.Network) (metricKey queryText : string)
      (st : Dashboard.State) :
  exists st',
    Dashboard.loadMetric net metricKey queryText st = (Normal tt, st') /\
    Dashboard.index (Dashboard.isLoadingMetrics st') metricKey = JBool false /\
    Dashboard.index (Dashboard.metricsError st') metricKey = JNull /\
    (isNullish (Dashboard.index Dashboard.DEMO_METRICS metricKey) = false ->
     isNullish (Dashboard.index (Dashboard.metrics st') metricKey) = false) /\
    (forall k, k <> metricKey ->
       Dashboard.index (Dashboard.metrics st') k =
         Dashboard.index (Dashboard.metrics st) k /\
       Dashboard.index (Dashboard.metricsError st') k =
         Dashboard.index (Dashboard.metricsError st) k /\
       Dashboard.index (Dashboard.isLoadingMetrics st') k =
         Dashboard.index (Dashboard.isLoadingMetrics st) k) /\
    Dashboard.query st' = Dashboard.query st /\
    Dashboard.queryResults st' = Dashboard.queryResults st /\
    Dashboard.error st' = Dashboard.error st /\
    Dashboard.isQuerying st' = Dashboard.isQuerying st /\
    Dashboard.requests st' =
      Dashboard.requests st ++
      (if Api.isValidStringInput (JStr queryText)
       then [(smartsqlUrl, smartsqlOptions (JStr queryText))] else []).
Proof.
  destruct (runSmartSQL_returns net (JStr queryText) (Dashboard.requests st))
    as (v & sent & H & S).
  rewrite <- S.
  unfold Dashboard.loadMetric, tryFinally, tryCatch, bind, await, ret,
    Dashboard.setIsLoadingMetrics, Dashboard.setMetricsError,
    Dashboard.setMetrics, Dashboard.callApi, modify; simpl.
  rewrite H.
  destruct (getProp v "error") as [e|err];
    [destruct (truthy e);
     [|destruct (Dashboard.extractValue v) as [value|err]]|];
    (eexists; split; [reflexivity|]); simpl;
    (split; [rewrite index_setProp, ?index_setProp; reflexivity|]);
    (split; [apply index_setProp|]);
    (split; [intros D; rewrite index_setProp;
             first [exact D | apply nullish_not_nullish, D]|]);
    (split; [intros k N; rewrite !index_setProp_other by exact N; auto|]);
    repeat (split; [reflexivity|]); reflexivity.
Qed.

(** X17.  A metric load always settles, whatever the network does: it
    never throws, the loading flag of its key ends [false], no error is
    ever recorded for the key, and when the key has a demo value the
    metric is neither [null] nor [undefined] afterwards.  The entries of
    the other keys and the query part of the state are left as they
    were, and at most one request is sent. *)
Theorem loadMetric_always_settles (net : Api.Network) (metricKey queryText : string)
        (st : Dashboard.State) :
  exists st',
    Dashboard.loadMetric net metricKey queryText st = (Normal tt, st') /\
    Dashboard.index (Dashboard.isLoadingMetrics st') metricKey = JBool false /\
    Dashboard.index (Dashboard.metricsError st') metricKey = JNull /\
    (isNullish (Dashboard.index Dashboard.DEMO_METRICS metricKey) = false ->
     isNullish (Dashboard.index (Dashboard.metrics st') metricKey) = false) /\
    (forall k, k <> metricKey ->
       Dashboard.index (Dashboard.metrics st') k =
         Dashboard.index (Dashboard.metrics st) k /\
       Dashboard.index (Dashboard.metricsError st') k =
         Dashboard.index (Dashboard.metricsError st) k /\
       Dashboard.index (Dashboard.isLoadingMetrics st') k =
         Dashboard.index (Dashboard.isLoadingMetrics st) k) /\
    Dashboard.query st' = Dashboard.query st /\
    Dashboard.queryResults st' = Dashboard.queryResults st /\
    Dashboard.error st' = Dashboard.error st /\
    Dashboard.isQuerying st' = Dashboard.isQuerying st /\
    exists sent,
      Dashboard.requests st' = Dashboard.requests st ++ sent /\
      (List.length sent <= 1)%nat.
Proof.
  destruct (loadMetric_settles net metricKey queryText st)
    as (st' & H & A & B & C & D & E & F & G & I & J).
  exists st'; repeat (split; [assumption|]).
  eexists; split; [exact J|].
  destruct (Api.isValidStringInput (JStr queryText)); simpl; lia.
Qed.

(** X26.  The initial load of the dashboard, whatever the network does:
    it never throws and sends exactly three requests, one per metric, in
    the order revenue, outstanding, VAT due; afterwards none of the
    three metrics is loading, none has an error, and each has a value
    that is neither [null] nor [undefined].  The cards therefore never
    show a failure, only figures, real or demo. *)
Theorem loadInitialMetrics_settles (net : Api.Network) (st : Dashboard.State) :
  exists st',
    Dashboard.loadInitialMetrics net st = (Normal tt, st') /\
    (forall k, In k ["revenue"; "outstanding"; "vatDue"] ->
       Dashboard.index (Dashboard.isLoadingMetrics st') k = JBool false /\
       Dashboard.index (Dashboard.metricsError st') k = JNull /\
       isNullish (Dashboard.index (Dashboard.metrics st') k) = false) /\
    Dashboard.requests st' =
      Dashboard.requests st ++
      map (fun text => (smartsqlUrl,
                        Api.createPostOptions (JObj [("query", JStr text)])))
          ["Total revenue this month"; "Outstanding invoices count";
           "Total VAT due this month"].
Proof.
  unfold Dashboard.loadInitialMetrics.
  destruct (loadMetric_settles net "revenue" "Total revenue this month" st)
    as (s1 & H1 & A1 & B1 & C1 & _ & _ & _ & _ & _ & R1).
  destruct (loadMetric_settles net "outstanding" "Outstanding invoices count" s1)
    as (s2 & H2 & A2 & B2 & C2 & D2 & _ & _ & _ & _ & R2).
  destruct (loadMetric_settles net "vatDue" "Total VAT due this month" s2)
    as (s3 & H3 & A3 & B3 & C3 & D3 & _ & _ & _ & _ & R3).
  exists s3.
  unfold bind; rewrite H1, H2, H3.
  split; [reflexivity|].
  split.
  - assert (N1 : "revenue" <> "outstanding") by discriminate.
    assert (N2 : "revenue" <> "vatDue") by discriminate.
    assert (N3 : "outstanding" <> "vatDue") by discriminate.
    destruct (D2 "revenue" N1) as (M2 & E2 & L2).
    destruct (D3 "revenue" N2) as (M3 & E3 & L3).
    destruct (D3 "outstanding" N3) as (M3' & E3' & L3').
    intros k [<- | [<- | [<- | []]]].
    + rewrite L3, L2, E3, E2, M3, M2; repeat split; auto.
    + rewrite L3', E3', M3'; repeat split; auto.
    + repeat split; auto.
  - rewrite R3, R2, R1; simpl.
    rewrite <- !app_assoc; reflexivity.
Qed.

Lemma leastIndexKey_none (props : list (string * JsVal)) (best : option (N * string)) :
  (forall k, In k (map fst props) -> Dashboard.arrayIndex k = None) ->
  Dashboard.leastIndexKey props best = best.
Proof.
  revert best; induction props as [|[k v] rest IH]; intros best H; simpl.
  - reflexivity.
  - rewrite (H k) by (left; reflexivity).
    apply IH; intros k' K; apply H; right; exact K.
Qed.

(** X18.  The value that a load shows for a result without error whose
    [results] is an array.  With no row the metric is the demo value.
    With a first row whose keys are not array indices, the metric is the
    value of the row's first field, or the demo value when that value is
    [null] or [undefined] - so that a NULL total is shown as the demo
    figure. *)
Theorem loadMetric_first_cell (net : Api.Network) (metricKey queryText : string)
        (st : Dashboard.State) (r : JsVal) (rows : list JsVal) :
  fst (Api.runSmartSQL net (JStr queryText) (Dashboard.requests st)) = Normal r ->
  lookupProp r "error" = None ->
  lookupProp r "results" = Some (JArr rows) ->
  exists st',
    Dashboard.loadMetric net metricKey queryText st = (Normal tt, st') /\
    (rows = [] ->
     Dashboard.index (Dashboard.metrics st') metricKey =
       Dashboard.index Dashboard.DEMO_METRICS metricKey) /\
    (forall k v fields others,
        rows = JObj ((k, v) :: fields) :: others ->
        (forall k', In k' (k :: map fst fields) -> Dashboard.arrayIndex k' = None) ->
        Dashboard.index (Dashboard.metrics st') metricKey =
          match v with
          | JUndefined | JNull => Dashboard.index Dashboard.DEMO_METRICS metricKey
          | _ => v
          end).
Proof.
  intros R E L.
  assert (G : getProp r "error" = Normal JUndefined).
  { destruct r; simpl in *; try discriminate; rewrite E; reflexivity. }
  assert (G2 : getProp r "results" = Normal (JArr rows))
    by (apply getProp_lookupProp, L).
  unfold Dashboard.loadMetric, tryFinally, tryCatch, bind, await, ret,
    Dashboard.setIsLoadingMetrics, Dashboard.setMetricsError,
    Dashboard.setMetrics, Dashboard.callApi, modify; simpl.
  destruct (Api.runSmartSQL net (JStr queryText) (Dashboard.requests st))
    as [c log'] eqn:Q.
  simpl in R; subst c.
  rewrite G; simpl.
  unfold Dashboard.extractValue; rewrite G2.
  destruct rows as [|firstRow others].
  - eexists; split; [reflexivity|]; simpl.
    split; [intros _; apply index_setProp | intros; discriminate].
  - destruct (Dashboard.firstValueOfRow firstRow) as [value|err] eqn:F.
    + eexists; split; [reflexivity|]; simpl.
      split; [intros; discriminate|].
      intros k v fields others' X NoIndex.
      injection X as -> _.
      rewrite index_setProp.
      unfold Dashboard.firstValueOfRow, Dashboard.firstKey in F.
      rewrite (leastIndexKey_none _ None) in F by exact NoIndex.
      simpl in F; rewrite String.eqb_refl in F.
      injection F as <-; reflexivity.
    + eexists; split; [reflexivity|]; simpl.
      split; [intros; discriminate|].
      intros k v fields others' X NoIndex.
      injection X as -> _.
      unfold Dashboard.firstValueOfRow, Dashboard.firstKey in F.
      rewrite (leastIndexKey_none _ None) in F by exact NoIndex.
      simpl in F; rewrite String.eqb_refl in F; discriminate.
Qed.

Lemma loadMetric_first_cell_witness :
  exists st',
    Dashboard.loadMetric (answering 200 (Normal nullTotal))
                         "revenue" "Total revenue this month"
                         (initialState EmptyString) = (Normal tt, st') /\
    Dashboard.index (Dashboard.metrics st') "revenue" = num 125750.
Proof.
  destruct (loadMetric_first_cell (answering 200 (Normal nullTotal))
              "revenue" "Total revenue this month" (initialState EmptyString)
              nullTotal [JObj [("total", JNull)]] eq_refl eq_refl eq_refl)
    as (st' & H & _ & K).
  exists st'; split; [exact H|].
  apply (K "total" JNull [] [] eq_refl).
  intros k' [<- | []]; reflexivity.
Defined.

Lemma trimmed_is_valid (s : string) :
  trim s <> EmptyString -> Api.isValidStringInput (JStr (trim s)) = true.
Proof.
  intros E; simpl; rewrite trim_idempotent.
  destruct (trim s); [congruence | reflexivity].
Qed.



(* ===================================================================== *)
(** ** The chat: what a message leaves behind *)
(* ===================================================================== *)

Lemma sendMessage_returns (net : Api.Network) (message context : JsVal)
      (log : Api.Log) :
  exists v sent,
    ApiRest.sendMessage net message context log = (Normal v, log ++ sent) /\
    List.length sent = if Api.isValidStringInput message then 1%nat else 0%nat.
Proof.
  unfold ApiRest.sendMessage.
  destruct (Api.isValidStringInput message); simpl.
  - destruct (handleRequest_returns net chatUrl
                (Api.createPostOptions
                   (JObj (ApiRest.withOptional [("message", message)]
                                               "context" context))) log) as (v & H).
    exists v; eexists; split; [exact H | reflexivity].
  - eexists; exists []; rewrite app_nil_r; split; reflexivity.
Qed.

Lemma sendMessageWithVoice_returns (net : ApiRest.Network)
      (message context voice_id : JsVal) (log : Api.Log) :
  exists r sent,
    ApiRest.sendMessageWithVoice net message context voice_id log =
      (Normal r, log ++ sent) /\
    List.length sent = if Api.isValidStringInput message then 1%nat else 0%nat.
Proof.
  destruct (Api.isValidStringInput message) eqn:V.
  - rewrite (sendMessageWithVoice_cases net message context voice_id log V).
    repeat (destruct_match; simpl); eexists; eexists;
      (split; [reflexivity | reflexivity]).
  - unfold ApiRest.sendMessageWithVoice; rewrite V.
    eexists; exists []; rewrite app_nil_r; split; reflexivity.
Qed.

(** The exchange with the assistant, once the user's message is in. *)
Lemma converse_outcome (net : ApiRest.Network) (voice : bool) (text : string)
      (st : Chat.State) :
  exists st' reply sent,
    Chat.converse net voice text st = (Normal tt, st') /\
    Chat.messages st' = Chat.messages st ++ reply /\
    (List.length reply <= 1)%nat /\
    (forall m, In m reply -> lookupProp m "role" = Some (JStr "assistant")) /\
    Chat.isLoading st' = false /\
    (Chat.error st' = Chat.error st \/ reply = []) /\
    Chat.inputValue st' = Chat.inputValue st /\
    Chat.voiceMode st' = Chat.voiceMode st /\
    Chat.requests st' = Chat.requests st ++ sent /\
    List.length sent =
      (if Api.isValidStringInput (JStr text) then 1%nat else 0%nat) /\
    (Chat.played st' = Chat.played st \/
     voice = true /\
     reply = [Chat.message "assistant" (JStr Chat.voicePlaceholder)] /\
     exists b, Chat.played st' = Chat.played st ++ [b]).
Proof.
  unfold Chat.converse, Chat.send.
  destruct voice.
  - destruct (sendMessageWithVoice_returns net (JStr text) JUndefined JUndefined
                (Chat.requests st)) as (r & sent & H & L).
    unfold tryFinally, tryCatch, bind, await, ret, Chat.callApi,
      Chat.setMessages, Chat.setError, Chat.setIsLoading, Chat.playAudio, modify.
    rewrite H.
    destruct r as [v|b].
    + destruct (getProp v "error") as [e|err];
        [destruct (truthy e);
         [|destruct (getProp v "voice_error") as [ve|err];
           [destruct (getProp v "response") as [resp|err];
            [destruct (truthy resp)|]|]]|];
        simpl;
        first [ eexists; exists [], sent; split; [reflexivity|];
                split; [simpl; rewrite app_nil_r; reflexivity|]
              | eexists; eexists; exists sent; split; [reflexivity|];
                split; [reflexivity|] ];
        simpl; repeat split; auto; try lia;
        try (intros m [<- | []]; reflexivity);
        try (intros m []).
    + simpl.
      eexists; eexists; exists sent; split; [reflexivity|].
      simpl; repeat split; auto.
      * intros m [<- | []]; reflexivity.
      * right; repeat split; eauto.
  - destruct (sendMessage_returns (ApiRest.plain net) (JStr text) JUndefined
                (Chat.requests st)) as (v & sent & H & L).
    unfold tryFinally, tryCatch, bind, await, ret, Chat.callApi,
      Chat.setMessages, Chat.setError, Chat.setIsLoading, Chat.playAudio, modify.
    rewrite H; simpl.
    destruct (getProp v "error") as [e|err];
      [destruct (truthy e);
       [|destruct (getProp v "voice_error") as [ve|err];
         [destruct (getProp v "response") as [resp|err];
          [destruct (truthy resp)|]|]]|];
      simpl;
      first [ eexists; exists [], sent; split; [reflexivity|];
              split; [simpl; rewrite app_nil_r; reflexivity|]
            | eexists; eexists; exists sent; split; [reflexivity|];
              split; [reflexivity|] ];
      simpl; repeat split; auto; try lia;
      try (intros m [<- | []]; reflexivity);
      try (intros m []).
Qed.





(* ===================================================================== *)
(** ** The invoice form: the line items *)
(* ===================================================================== *)

Lemma removeAt_passed (i index : nat) (items : list Invoice.Item) :
  (index < i)%nat -> Invoice.removeAt i index items = items.
Proof.
  revert i; induction items as [|item rest IH]; intros i H; simpl; [reflexivity|].
  destruct (Nat.eqb_spec i index); [lia|].
  rewrite IH by lia; reflexivity.
Qed.

Lemma removeAt_split (i index : nat) (items : list Invoice.Item) :
  (i <= index)%nat ->
  Invoice.removeAt i index items =
  firstn (index - i) items ++ skipn (S (index - i)) items.
Proof.
  revert i; induction items as [|item rest IH]; intros i H; simpl.
  - rewrite firstn_nil; reflexivity.
  - destruct (Nat.eqb_spec i index) as [->|N].
    + rewrite Nat.sub_diag; simpl.
      apply removeAt_passed; lia.
    + rewrite IH by lia.
      replace (index - i)%nat with (S (index - S i)) by lia.
      reflexivity.
Qed.

Lemma updateAt_length (i index : nat) (field : string) (value : JsVal)
      (items : list Invoice.Item) :
  List.length (Invoice.updateAt i index field value items) = List.length items.
Proof.
  revert i; induction items as [|item rest IH]; intros i; simpl; [reflexivity|].
  rewrite IH; reflexivity.
Qed.

Lemma updateAt_nth (i index : nat) (field : string) (value : JsVal)
      (items : list Invoice.Item) (n : nat) :
  nth_error (Invoice.updateAt i index field value items) n =
  match nth_error items n with
  | Some item => Some (if (i + n =? index)%nat then setProp item field value else item)
  | None => None
  end.
Proof.
  revert i n; induction items as [|item rest IH]; intros i n; simpl.
  - destruct n; reflexivity.
  - destruct n as [|n]; simpl.
    + rewrite Nat.add_0_r; reflexivity.
    + rewrite IH; replace (S i + n)%nat with (i + S n)%nat by lia; reflexivity.
Qed.

Lemma assoc_setProp (item : Invoice.Item) (field : string) (value : JsVal) (k : string) :
  assoc k (setProp item field value) =
  if String.eqb k field then Some value else assoc k item.
Proof.
  induction item as [|[k0 v0] rest IH]; simpl.
  - destruct (String.eqb k field); reflexivity.
  - destruct (String.eqb field k0) eqn:F; simpl.
    + apply String.eqb_eq in F; subst k0.
      destruct (String.eqb k field); reflexivity.
    + destruct (String.eqb k k0) eqn:K; [|exact IH].
      apply String.eqb_eq in K; subst k0.
      rewrite String.eqb_sym, F; reflexivity.
Qed.

Lemma act_keeps_one (items : list Invoice.Item) (a : Invoice.Action) :
  (1 <= List.length items)%nat -> (1 <= List.length (Invoice.act items a))%nat.
Proof.
  intros H; destruct a as [|index|index field value]; simpl.
  - unfold Invoice.addLineItem; rewrite length_app; simpl; lia.
  - unfold Invoice.removeLineItem.
    destruct (Nat.ltb_spec 1 (List.length items)); [|exact H].
    rewrite removeAt_split by lia; rewrite Nat.sub_0_r.
    rewrite length_app, length_firstn, length_skipn; lia.
  - unfold Invoice.updateLineItem; rewrite updateAt_length; exact H.
Qed.



(** X23.  Removing a line item.  The only item of a list cannot be
    removed, and an index outside the list removes nothing.  Otherwise
    exactly the item at the index goes: the items before it and the
    items after it stay, in their order. *)
Theorem removeLineItem_effect (index : nat) (lineItems : list Invoice.Item) :
  ((List.length lineItems <= 1)%nat ->
   Invoice.removeLineItem index lineItems = lineItems) /\
  ((List.length lineItems <= index)%nat ->
   Invoice.removeLineItem index lineItems = lineItems) /\
  ((1 < List.length lineItems)%nat ->
   (index < List.length lineItems)%nat ->
   Invoice.removeLineItem index lineItems =
     firstn index lineItems ++ skipn (S index) lineItems /\
   List.length (Invoice.removeLineItem index lineItems) =
     (List.length lineItems - 1)%nat).
Proof.
  unfold Invoice.removeLineItem.
  repeat split.
  - intros H; destruct (Nat.ltb_spec 1 (List.length lineItems)); [lia | reflexivity].
  - intros H; destruct (Nat.ltb_spec 1 (List.length lineItems)); [|reflexivity].
    rewrite removeAt_split by lia; rewrite Nat.sub_0_r.
    rewrite firstn_all2 by lia.
    rewrite skipn_all2 by lia.
    apply app_nil_r.
  - destruct (Nat.ltb_spec 1 (List.length lineItems)); [|lia].
    rewrite removeAt_split by lia; rewrite Nat.sub_0_r; reflexivity.
  - destruct (Nat.ltb_spec 1 (List.length lineItems)); [|lia].
    rewrite removeAt_split by lia; rewrite Nat.sub_0_r.
    rewrite length_app, length_firstn, length_skipn; lia.
Qed.

Lemma removeLineItem_effect_witness :
  Invoice.removeLineItem 0 Invoice.initialLineItems = Invoice.initialLineItems /\
  Invoice.removeLineItem 1
    [Invoice.blankItem; [("description", JStr "Audit")]; Invoice.blankItem] =
    [Invoice.blankItem; Invoice.blankItem].
Proof.
  split.
  - apply (proj1 (removeLineItem_effect 0 Invoice.initialLineItems)).
    simpl; lia.
  - apply (proj2 (proj2 (removeLineItem_effect 1
             [Invoice.blankItem; [("description", JStr "Audit")]; Invoice.blankItem])));
      simpl; lia.
Defined.

(** X24.  Editing a line item.  The number of items stays the same;
    every item but the one at the index is left as it was; in the item
    at the index the edited field reads back the new value and every
    other field keeps its value.  An index outside the list changes
    nothing. *)
Theorem updateLineItem_effect (index : nat) (field : string) (value : JsVal)
        (lineItems : list Invoice.Item) :
  List.length (Invoice.updateLineItem index field value lineItems) =
    List.length lineItems /\
  (forall n, n <> index ->
     nth_error (Invoice.updateLineItem index field value lineItems) n =
     nth_error lineItems n) /\
  (forall item,
     nth_error lineItems index = Some item ->
     exists item',
       nth_error (Invoice.updateLineItem index field value lineItems) index =
         Some item' /\
       assoc field item' = Some value /\
       forall k, k <> field -> assoc k item' = assoc k item) /\
  ((List.length lineItems <= index)%nat ->
   Invoice.updateLineItem index field value lineItems = lineItems).
Proof.
  unfold Invoice.updateLineItem.
  repeat split.
  - apply updateAt_length.
  - intros n N; rewrite updateAt_nth; simpl.
    destruct (nth_error lineItems n); [|reflexivity].
    destruct (Nat.eqb_spec n index); [congruence | reflexivity].
  - intros item H.
    exists (setProp item field value).
    rewrite updateAt_nth, H; simpl; rewrite Nat.eqb_refl.
    split; [reflexivity|].
    split.
    + rewrite assoc_setProp, String.eqb_refl; reflexivity.
    + intros k K; rewrite assoc_setProp.
      apply String.eqb_neq in K; rewrite K; reflexivity.
  - intros H.
    apply nth_error_ext; intros n.
    rewrite updateAt_nth; simpl.
    destruct (nth_error lineItems n) as [item|] eqn:E; [|reflexivity].
    destruct (Nat.eqb_spec n index) as [->|]; [|reflexivity].
    apply nth_error_None in H; congruence.
Qed.

Lemma updateLineItem_effect_witness :
  exists item',
    nth_error (Invoice.updateLineItem 0 "quantity" (JStr "3")
                                      Invoice.initialLineItems) 0 = Some item' /\
    assoc "quantity" item' = Some (JStr "3") /\
    forall k, k <> "quantity" -> assoc k item' = assoc k Invoice.blankItem.
Proof.
  exact (proj1 (proj2 (proj2 (updateLineItem_effect 0 "quantity" (JStr "3")
                                Invoice.initialLineItems)))
               Invoice.blankItem eq_refl).
Defined.

(* ===================================================================== *)
(** ** The query as it leaves the browser *)
(* ===================================================================== *)


